(** * Trading-Edge: the windowed data loader and the backtest simulator

    A shallow embedding of [scripts/dataset.py] (TradingDataset,
    RowGroupSampler) and of [scripts/backtest.py] (TradingSystem,
    backtest_day), with the properties of the design document stated
    against it.

    Conventions of the embedding.
    - Python integers are [Z]; list indices and lengths are [nat] once a
      range check has made them non-negative.
    - Floating-point values (prices, probabilities, normalized features)
      are rationals [Q]: comparison, maximum, subtraction and the running
      sum are the exact ones, rounding is not modelled.
    - A Python exception is a value of [error]; a call that can raise
      returns a [result]. Where an object is mutated before the exception
      is raised, the function returns the mutated object next to the
      [result]. *)

From Stdlib Require Import List ZArith QArith Bool Lia Permutation.
Import ListNotations.

(** ** Exceptions and results *)

(** The two [assert] statements of [dataset.py] are kept apart. *)
Inductive assertion : Type :=
| RowCountMismatch      (* dataset.py, __init__: actual_rows == expected_rows *)
| PosOutOfRange.        (* dataset.py, get_features_for: 0 <= pos < bars_per_day *)

Inductive error : Type :=
| ZeroDivisionError
| AssertionError (a : assertion)
| ValueError                      (* numpy: max of an empty array, shape mismatch *)
| KeyError (k : nat)              (* missing dict key *)
| IndexError (i : Z)              (* numpy: index out of bounds *)
| TypeError                       (* subscript of None *)
| ArchiveError (row_group : Z).   (* pyarrow: no such row group *)

Inductive result (A : Type) : Type :=
| OK (a : A)
| Err (e : error).

Arguments OK {A} a.
Arguments Err {A} e.

Definition bind {A B : Type} (r : result A) (k : A -> result B) : result B :=
  match r with
  | OK a => k a
  | Err e => Err e
  end.

Declare Scope result_scope.
Delimit Scope result_scope with result.
Notation "x <- r ;; k" := (bind r (fun x => k))
  (at level 61, r at next level, right associativity) : result_scope.
Open Scope result_scope.

(** [for x in xs: st = body st x], stopping at the first exception. *)
Fixpoint for_each {S X : Type} (body : S -> X -> result S) (xs : list X) (st : S)
  : result S :=
  match xs with
  | [] => OK st
  | x :: xs' =>
      match body st x with
      | OK st' => for_each body xs' st'
      | Err e => Err e
      end
  end.

(** Python's [range(n)] for an integer [n]: empty when [n <= 0]. *)
Definition range (n : Z) : list Z := map Z.of_nat (seq 0 (Z.to_nat n)).

(** ** backtest.py *)

Module Backtest.

(** [TREND_POSITION = {0: 1, 1: 1, 2: 1, 3: 0, 4: -1, 5: -1, 6: -1}] *)
Definition TREND_POSITION : list (nat * Z) :=
  [(0%nat, 1%Z); (1%nat, 1%Z); (2%nat, 1%Z); (3%nat, 0%Z);
   (4%nat, (-1)%Z); (5%nat, (-1)%Z); (6%nat, (-1)%Z)].

(** [d[k]] *)
Fixpoint dict_get (d : list (nat * Z)) (k : nat) : result Z :=
  match d with
  | [] => Err (KeyError k)
  | (k', v) :: d' => if Nat.eqb k k' then OK v else dict_get d' k
  end.

(** [x < y] on floats. *)
Definition Qlt_bool (x y : Q) : bool := negb (Qle_bool y x).

(** [probs.max()]: the largest entry; numpy raises on an empty array. *)
Definition np_max (probs : list Q) : result Q :=
  match probs with
  | [] => Err ValueError
  | x :: xs => OK (fold_left (fun m y => if Qlt_bool m y then y else m) xs x)
  end.

(** [probs.argmax()]: the index of the first occurrence of the largest
    entry. [i] is the index of the head of [xs], [best] the index of the
    best entry so far and [bestv] its value. *)
Fixpoint argmax_scan (xs : list Q) (i best : nat) (bestv : Q) : nat :=
  match xs with
  | [] => best
  | y :: ys =>
      if Qlt_bool bestv y then argmax_scan ys (S i) i y
      else argmax_scan ys (S i) best bestv
  end.

Definition np_argmax (probs : list Q) : result nat :=
  match probs with
  | [] => Err ValueError
  | x :: xs => OK (argmax_scan xs 1 0 x)
  end.

(** class TradingSystem *)
Record TradingSystem : Type := mkSystem {
  entry_threshold : Q;
  position : Z;
  current_trend : option nat   (* None until a class is committed *)
}.

(** [TradingSystem.__init__] *)
Definition init (threshold : Q) : TradingSystem :=
  {| entry_threshold := threshold; position := 0%Z; current_trend := None |}.

(** The default [entry_threshold=0.90]. *)
Definition default_threshold : Q := 90 # 100.

(** [max_trend != self.current_trend] *)
Definition trend_differs (max_trend : nat) (cur : option nat) : bool :=
  match cur with
  | None => true
  | Some c => negb (Nat.eqb max_trend c)
  end.

(** [TradingSystem.update]. The object is returned next to the result:
    [self.current_trend] is assigned before the dict lookup that can
    raise. *)
Definition update (self : TradingSystem) (probs : list Q)
  : TradingSystem * result Z :=
  match np_max probs with
  | Err e => (self, Err e)
  | OK max_prob =>
      match np_argmax probs with
      | Err e => (self, Err e)
      | OK max_trend =>
          if Qle_bool (entry_threshold self) max_prob
             && trend_differs max_trend (current_trend self)
          then
            let self1 := {| entry_threshold := entry_threshold self;
                            position := position self;
                            current_trend := Some max_trend |} in
            match dict_get TREND_POSITION max_trend with
            | Err e => (self1, Err e)
            | OK p =>
                let self2 := {| entry_threshold := entry_threshold self1;
                                position := p;
                                current_trend := current_trend self1 |} in
                (self2, OK (position self2))
            end
          else (self, OK (position self))
      end
  end.

(** The local variables of the loop of [backtest_day]. *)
Record locals : Type := mkLocals {
  system : TradingSystem;
  positions : list Z;
  pnls : list Q;
  cumulative_pnl : Q
}.

(** The dict returned by [backtest_day]. *)
Record report : Type := mkReport {
  r_prices : list Q;
  r_positions : list Z;
  r_pnls : list Q;
  r_final_pnl : Q;
  r_num_trades : nat
}.

(** [np.diff] *)
Fixpoint np_diff (xs : list Z) : list Z :=
  match xs with
  | x :: (y :: _) as tl => (y - x)%Z :: np_diff tl
  | _ => []
  end.

(** [np.sum(np.abs(np.diff(positions)) > 0)] *)
Definition count_trades (ps : list Z) : nat :=
  length (filter (fun d => (0 <? Z.abs d)%Z) (np_diff ps)).

Section Day.

(** One day: the [close] column of the loaded row group, and the trend
    probabilities the model gives at each position (lines 45-51: the
    sample, the model call and the softmax, taken as given). *)
Variable prices : list Q.
Variable probs_at : nat -> list Q.

(** The body of [for pos in range(len(prices))]. *)
Definition step (st : locals) (pos : nat) : result locals :=
  let (system', r) := update (system st) (probs_at pos) in
  position <- r ;;
  let cumulative_pnl' :=
    if (pos + 1 <? length prices)%nat then
      let price_change := nth (pos + 1) prices 0 - nth pos prices 0 in
      cumulative_pnl st + inject_Z position * price_change
    else cumulative_pnl st in
  OK {| system := system';
        positions := positions st ++ [position];
        pnls := pnls st ++ [cumulative_pnl'];
        cumulative_pnl := cumulative_pnl' |}.

Definition start : locals :=
  {| system := init default_threshold; positions := []; pnls := [];
     cumulative_pnl := 0 |}.

(** The state of the loop after its first [n] iterations. *)
Definition run (n : nat) : result locals := for_each step (seq 0 n) start.

Definition backtest_day : result report :=
  st <- run (length prices) ;;
  OK {| r_prices := prices;
        r_positions := positions st;
        r_pnls := pnls st;
        r_final_pnl := cumulative_pnl st;
        r_num_trades := count_trades (positions st) |}.

End Day.

End Backtest.

(** ** dataset.py *)

Module Dataset.

(** One row of the parquet table: the raw bar, its two labels and the
    nine pre-normalized columns. *)
Record Bar : Type := mkBar {
  b_open : Q; b_high : Q; b_low : Q; b_close : Q;
  b_session : Z; b_trend : Z;
  b_cdf_high_1s : Q; b_cdf_low_1s : Q; b_cdf_close_1s : Q;
  b_cdf_high_1m : Q; b_cdf_low_1m : Q; b_cdf_close_1m : Q;
  b_cdf_high_5m : Q; b_cdf_low_5m : Q; b_cdf_close_5m : Q
}.

(** The file as [pq.ParquetFile] shows it: a list of row groups, each a
    table of rows. *)
Definition RowGroup : Type := list Bar.
Definition ParquetFile : Type := list RowGroup.

(** [pf.metadata.num_row_groups] and [pf.metadata.num_rows] *)
Definition metadata_num_row_groups (pf : ParquetFile) : Z :=
  Z.of_nat (length pf).
Definition metadata_num_rows (pf : ParquetFile) : Z :=
  Z.of_nat (length (concat pf)).

(** [pf.read_row_group(i)], of pyarrow: a row group that does not exist
    cannot be read. *)
Definition read_row_group (pf : ParquetFile) (i : Z) : result RowGroup :=
  if (0 <=? i)%Z && (i <? Z.of_nat (length pf))%Z
  then OK (nth (Z.to_nat i) pf [])
  else Err (ArchiveError i).

(** The dict of numpy arrays built by [_load_row_group]. *)
Record Columns : Type := mkColumns {
  open : list Q; high : list Q; low : list Q; close : list Q;
  session : list Z; trend : list Z;
  cdf_high_1s : list Q; cdf_low_1s : list Q; cdf_close_1s : list Q;
  cdf_high_1m : list Q; cdf_low_1m : list Q; cdf_close_1m : list Q;
  cdf_high_5m : list Q; cdf_low_5m : list Q; cdf_close_5m : list Q
}.

(** [df[name].values] for each name. *)
Definition to_columns (df : RowGroup) : Columns :=
  {| open := map b_open df; high := map b_high df;
     low := map b_low df; close := map b_close df;
     session := map b_session df; trend := map b_trend df;
     cdf_high_1s := map b_cdf_high_1s df;
     cdf_low_1s := map b_cdf_low_1s df;
     cdf_close_1s := map b_cdf_close_1s df;
     cdf_high_1m := map b_cdf_high_1m df;
     cdf_low_1m := map b_cdf_low_1m df;
     cdf_close_1m := map b_cdf_close_1m df;
     cdf_high_5m := map b_cdf_high_5m df;
     cdf_low_5m := map b_cdf_low_5m df;
     cdf_close_5m := map b_cdf_close_5m df |}.

(** *** Python and numpy primitives *)

(** [a // b] and [a % b] on integers: floor division, as [Z.div] and
    [Z.modulo], but raising on a zero divisor. *)
Definition floordiv (a b : Z) : result Z :=
  if (b =? 0)%Z then Err ZeroDivisionError else OK (a / b)%Z.
Definition pymod (a b : Z) : result Z :=
  if (b =? 0)%Z then Err ZeroDivisionError else OK (a mod b)%Z.

(** A slice bound [i] on a sequence of length [len]: negative bounds
    count from the end, and the bound is clamped to [0, len]. *)
Definition slice_bound (len : nat) (i : Z) : nat :=
  if (i <? 0)%Z then Z.to_nat (Z.max 0 (i + Z.of_nat len))
  else Nat.min (Z.to_nat i) len.

(** [xs[a:b]] and [xs[a:]] *)
Definition slice {A : Type} (xs : list A) (a b : Z) : list A :=
  let a' := slice_bound (length xs) a in
  let b' := slice_bound (length xs) b in
  firstn (b' - a') (skipn a' xs).
Definition slice_from {A : Type} (xs : list A) (a : Z) : list A :=
  skipn (slice_bound (length xs) a) xs.

(** [xs[i]] for an integer [i]: negative indices count from the end. *)
Definition index {A : Type} (xs : list A) (i : Z) : result A :=
  let j := if (i <? 0)%Z then (i + Z.of_nat (length xs))%Z else i in
  if (0 <=? j)%Z then
    match nth_error xs (Z.to_nat j) with
    | Some x => OK x
    | None => Err (IndexError i)
    end
  else Err (IndexError i).

(** [xs[indices]] for an integer index array. *)
Fixpoint take {A : Type} (xs : list A) (indices : list Z) : result (list A) :=
  match indices with
  | [] => OK []
  | i :: rest =>
      x <- index xs i ;;
      ys <- take xs rest ;;
      OK (x :: ys)
  end.

(** [np.arange(start, stop, step)] on integers: [ceil((stop - start) / step)]
    elements when that is positive, none otherwise. *)
Definition arange (start stop step : Z) : result (list Z) :=
  if (step =? 0)%Z then Err ZeroDivisionError
  else
    let n := (- ((start - stop) / step))%Z in
    OK (map (fun k => (start + Z.of_nat k * step)%Z) (seq 0 (Z.to_nat n))).

(** A feature buffer of shape [(L, 3)]. *)
Definition row : Type := (Q * Q * Q)%type.
Definition zero_row : row := (0, 0, 0).

(** [np.zeros((n, 3), dtype=np.float32)] *)
Definition np_zeros (n : Z) : result (list row) :=
  if (n <? 0)%Z then Err ValueError else OK (repeat zero_row (Z.to_nat n)).

Inductive column3 : Type := col0 | col1 | col2.

Definition set_field (j : column3) (v : Q) (r : row) : row :=
  let '(h, l, c) := r in
  match j with
  | col0 => (v, l, c)
  | col1 => (h, v, c)
  | col2 => (h, l, v)
  end.

Fixpoint zip_with {A B C : Type} (f : A -> B -> C) (xs : list A) (ys : list B)
  : list C :=
  match xs, ys with
  | x :: xs', y :: ys' => f x y :: zip_with f xs' ys'
  | _, _ => []
  end.

(** [buf[start:, j] = vals]: the shapes must agree, a single value is
    broadcast. The stored values are the given ones (the cast to float32
    is not modelled). *)
Definition assign_col (buf : list row) (start : Z) (j : column3) (vals : list Q)
  : result (list row) :=
  let s := slice_bound (length buf) start in
  let target := skipn s buf in
  if (length vals =? length target)%nat then
    OK (firstn s buf ++ zip_with (set_field j) vals target)
  else if (length vals =? 1)%nat then
    OK (firstn s buf ++ map (set_field j (hd 0 vals)) target)
  else Err ValueError.

(** *** class TradingDataset *)

Record TradingDataset : Type := mkDataset {
  pf : ParquetFile;
  window_size : Z;
  stride : Z;
  start_index : Z;
  num_row_groups : Z;
  bars_per_day : Z;
  windows_per_day : Z;
  cached_row_group : Z;
  cached_data : option Columns
}.

(** [TradingDataset.__init__(parquet_path, window_size, stride, start_index)],
    on the file opened at [parquet_path]. *)
Definition init (file : ParquetFile) (window_size stride start_index : Z)
  : result TradingDataset :=
  let num_row_groups := metadata_num_row_groups file in
  let bars_per_day := 23400%Z in
  windows_per_day <- floordiv (bars_per_day - start_index) stride ;;
  let expected_rows := (num_row_groups * bars_per_day)%Z in
  let actual_rows := metadata_num_rows file in
  if (actual_rows =? expected_rows)%Z then
    OK {| pf := file; window_size := window_size; stride := stride;
          start_index := start_index; num_row_groups := num_row_groups;
          bars_per_day := bars_per_day; windows_per_day := windows_per_day;
          cached_row_group := (-1)%Z; cached_data := None |}
  else Err (AssertionError RowCountMismatch).

(** [__len__] *)
Definition len (self : TradingDataset) : Z :=
  (num_row_groups self * windows_per_day self)%Z.

(** [_get_row_group_and_offset] *)
Definition _get_row_group_and_offset (self : TradingDataset) (idx : Z)
  : result (Z * Z) :=
  row_group <- floordiv idx (windows_per_day self) ;;
  window_idx <- pymod idx (windows_per_day self) ;;
  let pos := (start_index self + window_idx * stride self)%Z in
  OK (row_group, pos).

(** [_load_row_group]: the cache is replaced only after a successful read. *)
Definition _load_row_group (self : TradingDataset) (row_group : Z)
  : TradingDataset * result unit :=
  if negb (cached_row_group self =? row_group)%Z then
    match read_row_group (pf self) row_group with
    | Err e => (self, Err e)
    | OK df =>
        ({| pf := pf self; window_size := window_size self;
            stride := stride self; start_index := start_index self;
            num_row_groups := num_row_groups self;
            bars_per_day := bars_per_day self;
            windows_per_day := windows_per_day self;
            cached_row_group := row_group;
            cached_data := Some (to_columns df) |}, OK tt)
    end
  else (self, OK tt).

(** The dict returned by [get_features_for]. *)
Record Sample : Type := mkSample {
  features_1s : list row;
  features_1m : list row;
  features_5m : list row;
  s_session : Z;
  s_trend : Z
}.

(** [len(a) == 0 or a[-1] != pos] *)
Definition empty_or_last_differs (a : list Z) (pos : Z) : result bool :=
  if (length a =? 0)%nat then OK true
  else
    last_idx <- index a (-1) ;;
    OK (negb (last_idx =? pos)%Z).

(** The body of [get_features_for] after the row group is loaded. *)
Definition build_features (window_size : Z) (data : Columns) (pos : Z)
  : result Sample :=
  (* 1s features *)
  features_1s <- np_zeros window_size ;;
  let available := Z.min (pos + 1) window_size in
  let start_idx := Z.max 0 (pos + 1 - window_size) in
  let start_pad := (window_size - available)%Z in
  features_1s <- assign_col features_1s start_pad col0
                   (slice (cdf_high_1s data) start_idx (pos + 1)) ;;
  features_1s <- assign_col features_1s start_pad col1
                   (slice (cdf_low_1s data) start_idx (pos + 1)) ;;
  features_1s <- assign_col features_1s start_pad col2
                   (slice (cdf_close_1s data) start_idx (pos + 1)) ;;
  (* 1m bars: completed bars + current partial *)
  all_1m_indices <- arange 59 (pos + 1) 60 ;;
  append_1m <- empty_or_last_differs all_1m_indices pos ;;
  let all_1m_indices :=
    if append_1m then all_1m_indices ++ [pos] else all_1m_indices in
  (* 5m bars: completed bars + current partial *)
  all_5m_indices <- arange 299 (pos + 1) 300 ;;
  append_5m <- empty_or_last_differs all_5m_indices pos ;;
  let all_5m_indices :=
    if append_5m then all_5m_indices ++ [pos] else all_5m_indices in
  (* 1m features *)
  let max_1m_bars := 60%Z in
  features_1m <- np_zeros max_1m_bars ;;
  let n_1m := Z.min (Z.of_nat (length all_1m_indices)) max_1m_bars in
  let indices_1m := slice_from all_1m_indices (- n_1m) in
  let start_1m := (max_1m_bars - n_1m)%Z in
  vals <- take (cdf_high_1m data) indices_1m ;;
  features_1m <- assign_col features_1m start_1m col0 vals ;;
  vals <- take (cdf_low_1m data) indices_1m ;;
  features_1m <- assign_col features_1m start_1m col1 vals ;;
  vals <- take (cdf_close_1m data) indices_1m ;;
  features_1m <- assign_col features_1m start_1m col2 vals ;;
  (* 5m features *)
  let max_5m_bars := 78%Z in
  features_5m <- np_zeros max_5m_bars ;;
  let n_5m := Z.min (Z.of_nat (length all_5m_indices)) max_5m_bars in
  let indices_5m := slice_from all_5m_indices (- n_5m) in
  let start_5m := (max_5m_bars - n_5m)%Z in
  vals <- take (cdf_high_5m data) indices_5m ;;
  features_5m <- assign_col features_5m start_5m col0 vals ;;
  vals <- take (cdf_low_5m data) indices_5m ;;
  features_5m <- assign_col features_5m start_5m col1 vals ;;
  vals <- take (cdf_close_5m data) indices_5m ;;
  features_5m <- assign_col features_5m start_5m col2 vals ;;
  (* labels *)
  session <- index (session data) pos ;;
  trend <- index (trend data) pos ;;
  OK {| features_1s := features_1s; features_1m := features_1m;
        features_5m := features_5m; s_session := session; s_trend := trend |}.

(** [get_features_for] *)
Definition get_features_for (self : TradingDataset) (row_group pos : Z)
  : TradingDataset * result Sample :=
  if (0 <=? pos)%Z && (pos <? bars_per_day self)%Z then
    let (self', loaded) := _load_row_group self row_group in
    match loaded with
    | Err e => (self', Err e)
    | OK _ =>
        match cached_data self' with
        | None => (self', Err TypeError)
        | Some data => (self', build_features (window_size self') data pos)
        end
    end
  else (self, Err (AssertionError PosOutOfRange)).

(** [__getitem__] *)
Definition __getitem__ (self : TradingDataset) (idx : Z)
  : TradingDataset * result Sample :=
  match _get_row_group_and_offset self idx with
  | Err e => (self, Err e)
  | OK (row_group, pos) => get_features_for self row_group pos
  end.

(** *** class RowGroupSampler *)

Record RowGroupSampler : Type := mkSampler {
  dataset : TradingDataset;
  shuffle : bool;
  rs_num_row_groups : Z;
  rs_windows_per_day : Z
}.

(** [RowGroupSampler.__init__] *)
Definition sampler_init (d : TradingDataset) (shuffle : bool) : RowGroupSampler :=
  {| dataset := d; shuffle := shuffle;
     rs_num_row_groups := num_row_groups d;
     rs_windows_per_day := windows_per_day d |}.

(** [RowGroupSampler.__iter__]: the indices yielded, in order.
    [np_random_shuffle] stands for the permutation drawn by
    [np.random.shuffle]. *)
Definition __iter__ (np_random_shuffle : list Z -> list Z)
  (self : RowGroupSampler) : list Z :=
  let row_groups := range (rs_num_row_groups self) in
  let row_groups :=
    if shuffle self then np_random_shuffle row_groups else row_groups in
  flat_map
    (fun rg =>
       let base := (rg * rs_windows_per_day self)%Z in
       map (fun offset => (base + offset)%Z) (range (rs_windows_per_day self)))
    row_groups.

(** [RowGroupSampler.__len__] *)
Definition sampler_len (self : RowGroupSampler) : Z := len (dataset self).

End Dataset.

(** ** backtest.py on the dataset *)

Module Driver.

Import Dataset.

Section Model.

(** The trend probabilities the model gives for a sample (lines 46-51 of
    [backtest_day]: the three tensors, the model call and the softmax,
    taken as given). *)
Variable predict : Sample -> list Q.

(** The loop [for pos in range(len(prices))] of [backtest_day], with the
    dataset whose cache [get_features_for] may replace. *)
Fixpoint run_on (row_group : Z) (prices : list Q) (positions : list nat)
  (dataset : TradingDataset) (st : Backtest.locals)
  : TradingDataset * result Backtest.locals :=
  match positions with
  | [] => (dataset, OK st)
  | pos :: rest =>
      let (dataset', r) := get_features_for dataset row_group (Z.of_nat pos) in
      match r with
      | Err e => (dataset', Err e)
      | OK sample =>
          match Backtest.step prices (fun _ => predict sample) st pos with
          | Err e => (dataset', Err e)
          | OK st' => run_on row_group prices rest dataset' st'
          end
      end
  end.

(** [backtest_day(model, device, dataset, row_group)] *)
Definition backtest_day (dataset : TradingDataset) (row_group : Z)
  : TradingDataset * result Backtest.report :=
  let (dataset1, loaded) := _load_row_group dataset row_group in
  match loaded with
  | Err e => (dataset1, Err e)
  | OK _ =>
      match cached_data dataset1 with
      | None => (dataset1, Err TypeError)
      | Some data =>
          let prices := close data in
          let (dataset2, r) :=
            run_on row_group prices (seq 0 (length prices)) dataset1
                   Backtest.start in
          match r with
          | Err e => (dataset2, Err e)
          | OK st =>
              (dataset2,
               OK {| Backtest.r_prices := prices;
                     Backtest.r_positions := Backtest.positions st;
                     Backtest.r_pnls := Backtest.pnls st;
                     Backtest.r_final_pnl := Backtest.cumulative_pnl st;
                     Backtest.r_num_trades :=
                       Backtest.count_trades (Backtest.positions st) |})
          end
      end
  end.

(** [plot_backtest]: the drawing is not modelled; [prices.min()] raises on
    an empty day. *)
Definition plot_backtest (report : Backtest.report) : result unit :=
  match Backtest.r_prices report with
  | [] => Err ValueError
  | _ :: _ => OK tt
  end.

(** The loop of [run_backtest] over the days, on the one dataset object:
    the lists [all_pnls] and [all_trades] grow by one entry per day. *)
Fixpoint run_days (day_indices : list Z) (dataset : TradingDataset)
  (all_pnls : list Q) (all_trades : list nat)
  : result (list Q * list nat) :=
  match day_indices with
  | [] => OK (all_pnls, all_trades)
  | day_idx :: rest =>
      let (dataset', r) := backtest_day dataset day_idx in
      report <- r ;;
      let all_pnls := all_pnls ++ [Backtest.r_final_pnl report] in
      let all_trades := all_trades ++ [Backtest.r_num_trades report] in
      _ <- plot_backtest report ;;
      run_days rest dataset' all_pnls all_trades
  end.

(** [run_backtest(model_class, weights_path, model_name, day_indices)] on
    the file at ['data/test.parquet']; the printed summary is not
    modelled. *)
Definition run_backtest (test_file : ParquetFile) (day_indices : option (list Z))
  : result (list Q * list nat) :=
  let day_indices :=
    match day_indices with
    | None => [0; 50; 100; 200; 500]%Z
    | Some days => days
    end in
  dataset <- init test_file 60 1 0 ;;
  run_days day_indices dataset [] [].

End Model.

End Driver.

(** ** The design document's notions *)

Module Spec.

Import Backtest.

(** The class-to-position mapping as the document words it: classes 0, 1
    and 2 are Long, class 3 is Flat, classes 4, 5 and 6 are Short. *)
Definition Long : Z := 1%Z.
Definition Flat : Z := 0%Z.
Definition Short : Z := (-1)%Z.

Definition mapped_position (c : nat) : Z :=
  if (c <=? 2)%nat then Long else if (c =? 3)%nat then Flat else Short.

(** A position of the report: -1, 0 or 1. *)
Definition position_ok (z : Z) : Prop := z = Short \/ z = Flat \/ z = Long.

(** The invariant of the simulator state. *)
Definition committed_ok (s : TradingSystem) : Prop :=
  position_ok (position s) /\
  forall c, current_trend s = Some c ->
            (c < 7)%nat /\ position s = mapped_position c.

(** The states a simulator goes through: from [init], by updates that
    return. *)
Inductive reachable (threshold : Q) : TradingSystem -> Prop :=
| reach_init : reachable threshold (init threshold)
| reach_update (s s' : TradingSystem) (probs : list Q) (z : Z) :
    reachable threshold s ->
    update s probs = (s', OK z) ->
    reachable threshold s'.

(** The transition fires: confident enough, and a class other than the
    committed one. *)
Definition fires (s : TradingSystem) (max_prob : Q) (max_class : nat) : Prop :=
  entry_threshold s <= max_prob /\ current_trend s <> Some max_class.

(** PnL of the interval [pos, pos+1): the position decided at [pos] times
    the close-price change; nothing at the last position of the day. *)
Definition interval_pnl (prices : list Q) (positions : list Z) (pos : nat) : Q :=
  if (pos + 1 <? length prices)%nat then
    inject_Z (nth pos positions 0%Z) * (nth (pos + 1) prices 0 - nth pos prices 0)
  else 0.

(** Cumulative PnL over the first [n] positions. *)
Fixpoint pnl_upto (prices : list Q) (positions : list Z) (n : nat) : Q :=
  match n with
  | O => 0
  | S k => pnl_upto prices positions k + interval_pnl prices positions k
  end.

(** A probability vector that puts all its mass on one class. *)
Definition certain (c : nat) : list Q :=
  map (fun k => if (k =? c)%nat then 1 else 0) (seq 0 7).

(** A class whose position is [z]. *)
Definition class_of_position (z : Z) : nat :=
  if (z =? 1)%Z then 0%nat else if (z =? 0)%Z then 3%nat else 4%nat.

(** The vector [p] has its single largest entry [v] at class [c]. *)
Definition peak_at (p : list Q) (c : nat) (v : Q) : Prop :=
  length p = 7%nat /\ (c < 7)%nat /\ nth c p 0 == v /\
  forall j, (j < 7)%nat -> j <> c -> nth j p 0 < v.

(** The cumulative PnL before position [pos]. *)
Definition pnl_before (pnls : list Q) (pos : nat) : Q :=
  match pos with
  | O => 0
  | S k => nth k pnls 0
  end.

End Spec.

Module WindowSpec.

Import Dataset.

(** The last second of a completed bar of [stride] seconds: 59, 119,
    179, ... for one-minute bars, 299, 599, ... for five-minute bars. *)
Definition is_boundary (stride i : Z) : bool := ((i + 1) mod stride =? 0)%Z.

(** All boundary indices up to [pos], in increasing order. *)
Definition boundaries_upto (stride pos : Z) : list Z :=
  filter (is_boundary stride) (range (pos + 1)).

(** The boundaries up to [pos], then [pos] itself as the current partial
    bar when it is not a boundary. *)
Definition window_indices (stride pos : Z) : list Z :=
  boundaries_upto stride pos
  ++ (if is_boundary stride pos then [] else [pos]).

(** The last [n] entries of a list (all of them when it has fewer). *)
Definition last_n {A : Type} (n : nat) (xs : list A) : list A :=
  skipn (length xs - n) xs.

(** The row of normalized (high, low, close) values at index [i]. *)
Definition row_at (high low close : list Q) (i : Z) : row :=
  (nth (Z.to_nat i) high 0, nth (Z.to_nat i) low 0, nth (Z.to_nat i) close 0).

(** The window of [slots] rows: the last [min(count, slots)] indices,
    right-aligned, zero rows in front. *)
Definition window (slots : nat) (stride : Z) (high low close : list Q)
  (pos : Z) : list row :=
  let indices := window_indices stride pos in
  let kept := last_n (Nat.min (length indices) slots) indices in
  repeat zero_row (slots - length kept) ++ map (row_at high low close) kept.

(** The 1s window: the rows of the last [min(pos + 1, window_size)]
    seconds up to [pos], right-aligned, zero rows in front. *)
Definition window_1s (window_size : Z) (high low close : list Q) (pos : Z)
  : list row :=
  let available := Z.to_nat (Z.min (pos + 1) window_size) in
  repeat zero_row (Z.to_nat window_size - available)
  ++ map (row_at high low close)
         (map Z.of_nat (seq (Z.to_nat (pos + 1) - available) available)).

(** The sample of position [pos] of a day. *)
Definition sample_at (window_size : Z) (data : Columns) (pos : Z) : Sample :=
  {| features_1s :=
       window_1s window_size (cdf_high_1s data) (cdf_low_1s data)
                 (cdf_close_1s data) pos;
     features_1m :=
       window 60 60 (cdf_high_1m data) (cdf_low_1m data) (cdf_close_1m data) pos;
     features_5m :=
       window 78 300 (cdf_high_5m data) (cdf_low_5m data) (cdf_close_5m data)
              pos;
     s_session := nth (Z.to_nat pos) (session data) 0%Z;
     s_trend := nth (Z.to_nat pos) (trend data) 0%Z |}.

(** The dataset [d] with the row group [rg] in its cache. *)
Definition with_cache (d : TradingDataset) (rg : Z) (df : RowGroup)
  : TradingDataset :=
  mkDataset (pf d) (window_size d) (stride d) (start_index d)
            (num_row_groups d) (bars_per_day d) (windows_per_day d)
            rg (Some (to_columns df)).

(** The state of a dataset object between calls: the day length is the
    constant of [__init__] and the cache holds nothing, or the columns
    of the row group it names. *)
Definition wf (d : TradingDataset) : Prop :=
  bars_per_day d = 23400%Z /\
  num_row_groups d = metadata_num_row_groups (pf d) /\
  ((cached_row_group d = (-1)%Z /\ cached_data d = None) \/
   exists df, read_row_group (pf d) (cached_row_group d) = OK df /\
              cached_data d = Some (to_columns df)).

(** The columns read by [get_features_for] all have [n] rows. *)
Definition columns_length (data : Columns) (n : nat) : Prop :=
  length (session data) = n /\ length (trend data) = n /\
  length (cdf_high_1s data) = n /\ length (cdf_low_1s data) = n /\
  length (cdf_close_1s data) = n /\
  length (cdf_high_1m data) = n /\ length (cdf_low_1m data) = n /\
  length (cdf_close_1m data) = n /\
  length (cdf_high_5m data) = n /\ length (cdf_low_5m data) = n /\
  length (cdf_close_5m data) = n.

(** A result that is not the row-count assertion of [__init__]. *)
Definition not_row_count_error {A : Type} (r : result A) : Prop :=
  r <> Err (AssertionError RowCountMismatch).

(** The dataset [d] with its cache emptied, as [__init__] leaves it. *)
Definition without_cache (d : TradingDataset) : TradingDataset :=
  mkDataset (pf d) (window_size d) (stride d) (start_index d)
            (num_row_groups d) (bars_per_day d) (windows_per_day d)
            (-1) None.

End WindowSpec.

(** ** A day of the backtest as a function of its rows *)

Module DaySpec.

Import Dataset WindowSpec.

Section Model.

Variable predict : Sample -> list Q.

(** The probabilities of a day: the model on the sample of each position. *)
Definition day_probs (window_size : Z) (df : RowGroup) (pos : nat) : list Q :=
  predict (sample_at window_size (to_columns df) (Z.of_nat pos)).

(** The report of a day, from its rows alone. *)
Definition day_report (window_size : Z) (df : RowGroup)
  : result Backtest.report :=
  Backtest.backtest_day (map b_close df) (day_probs window_size df).

(** The reports of the days of a list, each from its own rows, collected
    as [run_backtest] collects them. *)
Fixpoint day_reports (window_size : Z) (file : ParquetFile)
  (day_indices : list Z) (all_pnls : list Q) (all_trades : list nat)
  : result (list Q * list nat) :=
  match day_indices with
  | [] => OK (all_pnls, all_trades)
  | day_idx :: rest =>
      df <- read_row_group file day_idx ;;
      report <- day_report window_size df ;;
      _ <- Driver.plot_backtest report ;;
      day_reports window_size file rest
                  (all_pnls ++ [Backtest.r_final_pnl report])
                  (all_trades ++ [Backtest.r_num_trades report])
  end.

End Model.

End DaySpec.

(** ** Concrete days *)

Module Examples.

(** [v] at class [c], the rest of the mass spread over the other six. *)
Definition peaked (c : nat) (v : Q) : list Q :=
  map (fun k => if (k =? c)%nat then v else (1 - v) / 6) (seq 0 7).

(** 0.95 at class 0, 0.95 at class 0, 0.92 at class 4. *)
Definition hysteresis_probs (pos : nat) : list Q :=
  nth pos [peaked 0 (95 # 100); peaked 0 (95 # 100); peaked 4 (92 # 100)] [].

Definition hysteresis_prices : list Q := [100; 101; 99].

(** Prices 100, 101, 99, 99 under positions Long, Long, Short, Short. *)
Definition pnl_prices : list Q := [100; 101; 99; 99].

Definition pnl_probs (pos : nat) : list Q :=
  nth pos [peaked 0 (95 # 100); peaked 0 (95 # 100);
           peaked 4 (95 # 100); peaked 4 (95 # 100)] [].

Definition unsure (pos : nat) : list Q := peaked 3 (40 # 100).

Definition ten_classes : list Q :=
  [0; 0; 0; 0; 0; 0; 0; 0; 1; 0].


(** A bar whose normalized columns all hold [v]. *)
Definition flat_bar (v : Q) : Dataset.Bar :=
  Dataset.mkBar 100 100 100 100 0%Z 3%Z v v v v v v v v v.

(** A file of one day, and a file one row short of a day. *)
Definition one_day : Dataset.ParquetFile := [repeat (flat_bar (1 # 2)) (Z.to_nat 23400)].
Definition short_day : Dataset.ParquetFile := [repeat (flat_bar (1 # 2)) (Z.to_nat 23399)].

(** [TradingDataset(one_day)] with the default arguments, as constructed. *)
Definition one_day_dataset : Dataset.TradingDataset :=
  Dataset.mkDataset one_day 60 1 0 1 23400 23400 (-1) None.

(** A file of two row groups with the row count of two days, the first
    one row short and the second one row long, and the dataset
    constructed on it. *)
Definition uneven_days : Dataset.ParquetFile :=
  [repeat (flat_bar (1 # 2)) (Z.to_nat 23399);
   repeat (flat_bar (1 # 2)) (Z.to_nat 23401)].
Definition uneven_dataset : Dataset.TradingDataset :=
  Dataset.mkDataset uneven_days 60 1 0 2 23400 23400 (-1) None.

(** A model that gives [unsure] for every sample. *)
Definition unsure_model (sample : Dataset.Sample) : list Q := unsure 0.

End Examples.

(** ** Properties of the simulator *)

Section ResultLemmas.

Context {S X : Type} (body : S -> X -> result S).

Lemma for_each_app (xs ys : list X) (st : S) :
  for_each body (xs ++ ys) st = (st' <- for_each body xs st ;; for_each body ys st').
Proof.
  revert st; induction xs as [|x xs IH]; intros st; simpl; [reflexivity|].
  destruct (body st x); simpl; auto.
Qed.

Lemma for_each_snoc (xs : list X) (x : X) (st : S) :
  for_each body (xs ++ [x]) st = (st' <- for_each body xs st ;; body st' x).
Proof.
  rewrite for_each_app. destruct (for_each body xs st); simpl; [|reflexivity].
  destruct (body a x); reflexivity.
Qed.

End ResultLemmas.

Lemma bind_OK_inv {A B : Type} (r : result A) (k : A -> result B) (b : B) :
  (x <- r ;; k x) = OK b -> exists a, r = OK a /\ k a = OK b.
Proof. destruct r; simpl; intros H; [eauto | discriminate]. Qed.

Section MaxLemmas.

Import Backtest.

Lemma Qlt_bool_true (x y : Q) : Qlt_bool x y = true <-> x < y.
Proof.
  unfold Qlt_bool. rewrite negb_true_iff.
  split; intros H.
  - apply Qnot_le_lt. intros Hle. apply Qle_bool_iff in Hle. congruence.
  - destruct (Qle_bool y x) eqn:E; [|reflexivity].
    apply Qle_bool_iff in E. exfalso. apply (Qlt_not_le _ _ H E).
Qed.

Lemma Qlt_bool_false (x y : Q) : Qlt_bool x y = false <-> y <= x.
Proof.
  unfold Qlt_bool. rewrite negb_false_iff. apply Qle_bool_iff.
Qed.

(** The scan of [argmax] and the fold of [max] walk the array together:
    [pre] is the part already seen, [best] the first index of its largest
    entry [bestv]. *)
Lemma scan_spec (xs : list Q) :
  forall (pre : list Q) (best : nat) (bestv : Q),
    (best < length pre)%nat ->
    nth best pre 0 = bestv ->
    (forall j, (j < length pre)%nat -> nth j pre 0 <= bestv) ->
    (forall j, (j < best)%nat -> nth j pre 0 < bestv) ->
    let c := argmax_scan xs (length pre) best bestv in
    let m := fold_left (fun m y => if Qlt_bool m y then y else m) xs bestv in
    (c < length (pre ++ xs))%nat /\
    nth c (pre ++ xs) 0 = m /\
    (forall j, (j < length (pre ++ xs))%nat -> nth j (pre ++ xs) 0 <= m) /\
    (forall j, (j < c)%nat -> nth j (pre ++ xs) 0 < m).
Proof.
  induction xs as [|y ys IH]; intros pre best bestv Hb Hn Hle Hlt; simpl.
  - rewrite app_nil_r. auto.
  - assert (Hlen : length (pre ++ [y]) = Datatypes.S (length pre))
      by (rewrite length_app; simpl; lia).
    replace (pre ++ y :: ys) with ((pre ++ [y]) ++ ys)
      by (rewrite <- app_assoc; reflexivity).
    destruct (Qlt_bool bestv y) eqn:E.
    + apply Qlt_bool_true in E.
      rewrite <- Hlen. apply IH.
      * lia.
      * rewrite app_nth2 by lia. rewrite Nat.sub_diag. reflexivity.
      * intros j Hj. destruct (Nat.eq_dec j (length pre)) as [->|Hne].
        -- rewrite app_nth2 by lia. rewrite Nat.sub_diag. simpl. apply Qle_refl.
        -- rewrite app_nth1 by lia. apply Qlt_le_weak.
           apply Qle_lt_trans with bestv; [apply Hle; lia | exact E].
      * intros j Hj. rewrite app_nth1 by lia.
        apply Qle_lt_trans with bestv; [apply Hle; lia | exact E].
    + apply Qlt_bool_false in E.
      rewrite <- Hlen. apply IH.
      * lia.
      * rewrite app_nth1 by lia. exact Hn.
      * intros j Hj. destruct (Nat.eq_dec j (length pre)) as [->|Hne].
        -- rewrite app_nth2 by lia. rewrite Nat.sub_diag. simpl. exact E.
        -- rewrite app_nth1 by lia. apply Hle. lia.
      * intros j Hj. rewrite app_nth1 by lia. apply Hlt. exact Hj.
Qed.

(** [max] and [argmax] of a non-empty array. *)
Lemma max_argmax_spec (p : list Q) :
  p <> [] ->
  exists m c,
    np_max p = OK m /\ np_argmax p = OK c /\
    (c < length p)%nat /\
    nth c p 0 = m /\
    (forall j, (j < length p)%nat -> nth j p 0 <= m) /\
    (forall j, (j < c)%nat -> nth j p 0 < m).
Proof.
  destruct p as [|x xs]; [congruence|]. intros _.
  eexists; eexists. split; [reflexivity|]. split; [reflexivity|].
  apply (scan_spec xs [x] 0%nat x); simpl.
  - lia.
  - reflexivity.
  - intros j Hj. replace j with 0%nat by lia. apply Qle_refl.
  - intros j Hj. lia.
Qed.

End MaxLemmas.

Section SimulatorLemmas.

Import Backtest Spec.

Lemma trend_position_mapped (c : nat) :
  (c < 7)%nat -> dict_get TREND_POSITION c = OK (mapped_position c).
Proof. intros H. do 7 (destruct c as [|c]; [reflexivity|]). lia. Qed.

Lemma trend_position_missing (c : nat) :
  (7 <= c)%nat -> dict_get TREND_POSITION c = Err (KeyError c).
Proof. intros H. do 7 (destruct c as [|c]; [lia|]). reflexivity. Qed.

Lemma mapped_position_ok (c : nat) : position_ok (mapped_position c).
Proof.
  unfold position_ok, mapped_position.
  destruct (c <=? 2)%nat; [auto|]. destruct (c =? 3)%nat; auto.
Qed.

Lemma trend_differs_true (c : nat) (cur : option nat) :
  trend_differs c cur = true <-> cur <> Some c.
Proof.
  destruct cur as [c'|]; simpl.
  - rewrite negb_true_iff, Nat.eqb_neq. split; congruence.
  - split; [discriminate | reflexivity].
Qed.

Lemma fires_dec (s : TradingSystem) (m : Q) (c : nat) :
  Qle_bool (entry_threshold s) m && trend_differs c (current_trend s) = true
  <-> fires s m c.
Proof.
  unfold fires. rewrite andb_true_iff, Qle_bool_iff, trend_differs_true.
  reflexivity.
Qed.

(** [update] once [max] and [argmax] are known. *)
Lemma update_cases (s : TradingSystem) (p : list Q) (m : Q) (c : nat) :
  np_max p = OK m -> np_argmax p = OK c ->
  (fires s m c -> (c < 7)%nat ->
   update s p = (mkSystem (entry_threshold s) (mapped_position c) (Some c),
                 OK (mapped_position c))) /\
  (fires s m c -> (7 <= c)%nat ->
   update s p = (mkSystem (entry_threshold s) (position s) (Some c),
                 Err (KeyError c))) /\
  (~ fires s m c -> update s p = (s, OK (position s))).
Proof.
  intros Hm Hc. unfold update. rewrite Hm, Hc.
  destruct (Qle_bool (entry_threshold s) m && trend_differs c (current_trend s))
    eqn:E.
  - apply fires_dec in E. split; [|split]; intros.
    + rewrite trend_position_mapped by assumption. reflexivity.
    + rewrite trend_position_missing by assumption. reflexivity.
    + contradiction.
  - assert (~ fires s m c) by (rewrite <- fires_dec; congruence).
    split; [|split]; intros; [contradiction | contradiction | reflexivity].
Qed.

(** An update that returns keeps the invariant and returns the position
    it leaves in the object. *)
Lemma update_committed_ok (s s' : TradingSystem) (p : list Q) (z : Z) :
  committed_ok s -> update s p = (s', OK z) ->
  committed_ok s' /\ z = position s' /\ entry_threshold s' = entry_threshold s.
Proof.
  intros Hinv Hup.
  destruct p as [|x xs]; [discriminate|].
  destruct (max_argmax_spec (x :: xs)) as (m & c & Hm & Hc & Hlt & _);
    [discriminate|].
  destruct (update_cases s _ _ _ Hm Hc) as (Hfire & Hkey & Hhold).
  destruct (Qle_bool (entry_threshold s) m && trend_differs c (current_trend s))
    eqn:E.
  - apply fires_dec in E.
    destruct (Nat.lt_ge_cases c 7) as [H7|H7].
    + rewrite (Hfire E H7) in Hup. inversion Hup; subst; clear Hup.
      split; [split|split]; simpl.
      * apply mapped_position_ok.
      * intros c' Hc'. inversion Hc'; subst. split; [assumption|reflexivity].
      * reflexivity.
      * reflexivity.
    + rewrite (Hkey E H7) in Hup. discriminate.
  - rewrite Hhold in Hup by (rewrite <- fires_dec; congruence).
    inversion Hup; subst. split; [exact Hinv | split; reflexivity].
Qed.

Lemma init_committed_ok (threshold : Q) : committed_ok (init threshold).
Proof.
  split; simpl; [right; left; reflexivity | discriminate].
Qed.

Lemma reachable_committed_ok (threshold : Q) (s : TradingSystem) :
  reachable threshold s -> committed_ok s.
Proof.
  induction 1 as [|s s' p z Hr IH Hup].
  - apply init_committed_ok.
  - apply (update_committed_ok _ _ _ _ IH Hup).
Qed.

(** A vector of length 7 never makes [update] raise. *)
Lemma update_total (s : TradingSystem) (p : list Q) :
  length p = 7%nat -> exists s' z, update s p = (s', OK z).
Proof.
  intros Hlen.
  destruct (max_argmax_spec p) as (m & c & Hm & Hc & Hlt & _).
  { intros ->; discriminate. }
  destruct (update_cases s _ _ _ Hm Hc) as (Hfire & _ & Hhold).
  destruct (Qle_bool (entry_threshold s) m && trend_differs c (current_trend s))
    eqn:E.
  - apply fires_dec in E. rewrite Hfire by (auto; lia). eauto.
  - rewrite Hhold by (rewrite <- fires_dec; congruence). eauto.
Qed.

Section Loop.

Variable prices : list Q.
Variable probs_at : nat -> list Q.

Lemma run_S (n : nat) :
  run prices probs_at (Datatypes.S n) =
  (st <- run prices probs_at n ;; step prices probs_at st n).
Proof. unfold run. rewrite seq_S. simpl. apply for_each_snoc. Qed.

Lemma step_inv (st st' : locals) (pos : nat) :
  step prices probs_at st pos = OK st' ->
  exists z,
    update (system st) (probs_at pos) = (system st', OK z) /\
    positions st' = positions st ++ [z] /\
    pnls st' = pnls st ++ [cumulative_pnl st'] /\
    cumulative_pnl st' =
      (if (pos + 1 <? length prices)%nat
       then cumulative_pnl st
            + inject_Z z * (nth (pos + 1) prices 0 - nth pos prices 0)
       else cumulative_pnl st).
Proof.
  unfold step. destruct (update (system st) (probs_at pos)) as [sys' [z|e]];
    simpl; [|discriminate].
  intros H; inversion H; subst; clear H; simpl. eauto.
Qed.

(** What the loop has built after [n] iterations: the simulator part. *)
Lemma run_positions (n : nat) (st : locals) :
  run prices probs_at n = OK st ->
  length (positions st) = n /\
  reachable default_threshold (system st) /\
  Forall position_ok (positions st).
Proof.
  revert st; induction n as [|n IH]; intros st Hrun.
  - inversion Hrun; subst; simpl. repeat split; constructor.
  - rewrite run_S in Hrun. apply bind_OK_inv in Hrun.
    destruct Hrun as (st0 & Hrun0 & Hstep).
    destruct (IH _ Hrun0) as (Hlen & Hreach & Hall).
    destruct (step_inv _ _ _ Hstep) as (z & Hup & Hpos & _).
    rewrite Hpos. repeat split.
    + rewrite length_app; simpl; lia.
    + eapply reach_update; eauto.
    + apply Forall_app; split; [assumption|].
      constructor; [|constructor].
      destruct (update_committed_ok _ _ _ _ (reachable_committed_ok _ _ Hreach) Hup)
        as ((Hok & _) & -> & _). exact Hok.
Qed.

Lemma interval_pnl_ext (ps ps' : list Z) (k : nat) :
  nth k ps 0%Z = nth k ps' 0%Z ->
  interval_pnl prices ps k = interval_pnl prices ps' k.
Proof. unfold interval_pnl. intros ->. reflexivity. Qed.

Lemma pnl_upto_ext (ps ps' : list Z) (n : nat) :
  (forall k, (k < n)%nat -> nth k ps 0%Z = nth k ps' 0%Z) ->
  pnl_upto prices ps n = pnl_upto prices ps' n.
Proof.
  induction n as [|n IH]; intros H; simpl; [reflexivity|].
  rewrite IH by (intros; apply H; lia).
  rewrite (interval_pnl_ext ps ps' n) by (apply H; lia). reflexivity.
Qed.

(** What the loop has built after [n] iterations: the PnL part. *)
Lemma run_pnls (n : nat) (st : locals) :
  run prices probs_at n = OK st ->
  length (pnls st) = n /\
  cumulative_pnl st == pnl_upto prices (positions st) n /\
  (forall k, (k < n)%nat ->
             nth k (pnls st) 0 == pnl_upto prices (positions st) (Datatypes.S k)).
Proof.
  revert st; induction n as [|n IH]; intros st Hrun.
  - inversion Hrun; subst; simpl. repeat split; try reflexivity; intros; lia.
  - rewrite run_S in Hrun. apply bind_OK_inv in Hrun.
    destruct Hrun as (st0 & Hrun0 & Hstep).
    destruct (IH _ Hrun0) as (Hlen & Hcum & Hnth).
    destruct (run_positions _ _ Hrun0) as (Hplen & _ & _).
    destruct (step_inv _ _ _ Hstep) as (z & _ & Hpos & Hpnls & Hcum').
    assert (Hagree : forall k, (k < n)%nat ->
              nth k (positions st0) 0%Z = nth k (positions st) 0%Z).
    { intros k Hk. rewrite Hpos, app_nth1 by lia. reflexivity. }
    assert (Hnew : cumulative_pnl st
                   == pnl_upto prices (positions st) (Datatypes.S n)).
    { simpl. rewrite <- (pnl_upto_ext _ _ _ Hagree). rewrite <- Hcum.
      rewrite Hcum'. unfold interval_pnl.
      rewrite Hpos, app_nth2 by lia. rewrite Hplen, Nat.sub_diag. simpl.
      destruct (n + 1 <? length prices)%nat; [reflexivity|].
      rewrite Qplus_0_r. reflexivity. }
    repeat split.
    + rewrite Hpnls, length_app; simpl; lia.
    + exact Hnew.
    + intros k Hk. rewrite Hpnls.
      destruct (Nat.eq_dec k n) as [->|Hne].
      * rewrite app_nth2 by lia. rewrite Hlen, Nat.sub_diag. simpl. exact Hnew.
      * rewrite app_nth1 by lia. rewrite Hnth by lia.
        rewrite (pnl_upto_ext (positions st0) (positions st) (Datatypes.S k));
          [reflexivity|].
        intros j Hj. apply Hagree. lia.
Qed.

(** The loop runs to its end when every probability vector has length 7. *)
Lemma run_total (n : nat) :
  (forall pos, (pos < n)%nat -> length (probs_at pos) = 7%nat) ->
  exists st, run prices probs_at n = OK st.
Proof.
  induction n as [|n IH]; intros Hlen.
  - eexists; reflexivity.
  - destruct IH as (st & Hst); [intros; apply Hlen; lia|].
    rewrite run_S, Hst. simpl. unfold step.
    destruct (update_total (system st) (probs_at n)) as (s' & z & Hup);
      [apply Hlen; lia|].
    rewrite Hup. simpl. eauto.
Qed.

End Loop.

End SimulatorLemmas.

(** Case analysis on a class index below 7. *)
Ltac below7 c :=
  let H := fresh in
  assert (H : (c = 0 \/ c = 1 \/ c = 2 \/ c = 3 \/ c = 4 \/ c = 5 \/ c = 6)%nat)
    by lia;
  destruct H as [->|[->|[->|[->|[->|[->| ->]]]]]].

Section SimulatorRuns.

Import Backtest Spec.

(** A vector peaked at [c] has [c] as its argmax and the peak as its max. *)
Lemma peak_max (p : list Q) (c : nat) (v : Q) :
  peak_at p c v ->
  exists m, np_max p = OK m /\ np_argmax p = OK c /\ m == v.
Proof.
  intros (Hlen & Hc & Hv & Hrest).
  destruct (max_argmax_spec p) as (m & c' & Hm & Hc' & Hlt & Hnth & Hle & Hfirst).
  { intros ->; discriminate. }
  rewrite Hlen in Hlt, Hle.
  assert (c' = c) as ->.
  { destruct (Nat.eq_dec c' c) as [|Hne]; [assumption|]. exfalso.
    specialize (Hrest c' Hlt Hne). specialize (Hle c Hc).
    rewrite Hnth, Hv in *. apply (Qlt_not_le _ _ Hrest Hle). }
  exists m. split; [exact Hm | split; [exact Hc' | rewrite <- Hnth; exact Hv]].
Qed.

Lemma update_peak_fires (s : TradingSystem) (p : list Q) (c : nat) (v : Q) :
  peak_at p c v -> entry_threshold s <= v -> current_trend s <> Some c ->
  update s p = (mkSystem (entry_threshold s) (mapped_position c) (Some c),
                OK (mapped_position c)).
Proof.
  intros Hp Hthr Hcur.
  destruct (peak_max _ _ _ Hp) as (m & Hm & Hc & Hmv).
  destruct Hp as (_ & Hc7 & _).
  apply (update_cases s p m c Hm Hc); [|exact Hc7].
  split; [rewrite Hmv; exact Hthr | exact Hcur].
Qed.

Lemma update_peak_holds (s : TradingSystem) (p : list Q) (c : nat) (v : Q) :
  peak_at p c v -> current_trend s = Some c ->
  update s p = (s, OK (position s)).
Proof.
  intros Hp Hcur.
  destruct (peak_max _ _ _ Hp) as (m & Hm & Hc & Hmv).
  apply (update_cases s p m c Hm Hc).
  intros (_ & Hne). contradiction.
Qed.

Lemma trend_differs_false (c : nat) (cur : option nat) :
  trend_differs c cur = false <-> cur = Some c.
Proof.
  destruct cur as [c'|]; simpl.
  - rewrite negb_false_iff, Nat.eqb_eq. split; congruence.
  - split; discriminate.
Qed.

Lemma certain_peak (c : nat) : (c < 7)%nat -> peak_at (certain c) c 1.
Proof.
  intros Hc. below7 c;
    (split; [reflexivity|]; split; [lia|]; split; [reflexivity|];
     intros j Hj Hne; below7 j; try congruence; reflexivity).
Qed.

Lemma class_of_position_lt (z : Z) : (class_of_position z < 7)%nat.
Proof.
  unfold class_of_position.
  destruct (z =? 1)%Z; [lia|]. destruct (z =? 0)%Z; lia.
Qed.

Lemma mapped_class_of_position (z : Z) :
  position_ok z -> mapped_position (class_of_position z) = z.
Proof. intros [->|[->| ->]]; reflexivity. Qed.

Lemma firstn_S_nth {A : Type} (l : list A) (n : nat) (d : A) :
  (n < length l)%nat -> firstn (Datatypes.S n) l = firstn n l ++ [nth n l d].
Proof.
  revert n; induction l as [|x l IH]; intros n Hn; simpl in *; [lia|].
  destruct n as [|n]; [reflexivity|].
  simpl. f_equal. apply IH. lia.
Qed.

(** Every sequence of positions is decided by some run of the simulator:
    feed, at each step, all the mass on a class of the wanted position. *)
Lemma run_realizes (prices : list Q) (ps : list Z) :
  Forall position_ok ps ->
  let probs_at := fun pos => certain (class_of_position (nth pos ps 0%Z)) in
  forall n, (n <= length ps)%nat ->
  exists st,
    run prices probs_at n = OK st /\
    positions st = firstn n ps /\
    entry_threshold (system st) = default_threshold /\
    match n with
    | O => current_trend (system st) = None
    | Datatypes.S k =>
        current_trend (system st) = Some (class_of_position (nth k ps 0%Z)) /\
        position (system st) = nth k ps 0%Z
    end.
Proof.
  intros Hok probs_at n. induction n as [|n IH]; intros Hn.
  - exists (start). repeat split.
  - destruct IH as (st & Hrun & Hpos & Hthr & Hcur); [lia|].
    assert (Hz : position_ok (nth n ps 0%Z)).
    { rewrite Forall_forall in Hok. apply Hok. apply nth_In. lia. }
    set (z := nth n ps 0%Z) in *.
    assert (Hpeak : peak_at (probs_at n) (class_of_position z) 1)
      by (apply certain_peak, class_of_position_lt).
    rewrite run_S, Hrun. simpl. unfold step.
    destruct (trend_differs (class_of_position z) (current_trend (system st)))
      eqn:E;
      [apply trend_differs_true in E; rename E into Hne
      |apply trend_differs_false in E; rename E into Heq].
    2:{ rewrite (update_peak_holds _ _ _ _ Hpeak Heq). simpl.
      destruct n as [|k]; [rewrite Hcur in Heq; discriminate|].
      destruct Hcur as (Hc & Hp).
      assert (Hsame : position (system st) = z).
      { rewrite Hc in Heq. inversion Heq as [Hcls].
        rewrite Hp.
        rewrite <- (mapped_class_of_position (nth k ps 0%Z)).
        - rewrite Hcls. apply mapped_class_of_position. exact Hz.
        - rewrite Forall_forall in Hok. apply Hok. apply nth_In. lia. }
      eexists. split; [reflexivity|].
      cbn [positions system position current_trend entry_threshold].
      rewrite Hsame, Hpos. split; [|split; [exact Hthr|split; auto]].
      symmetry. apply firstn_S_nth. lia. }
    rewrite (update_peak_fires _ _ _ _ Hpeak); [| |exact Hne].
    2:{ rewrite Hthr. unfold default_threshold, Qle; simpl; lia. }
    simpl. eexists. split; [reflexivity|].
    cbn [positions system position current_trend entry_threshold].
    rewrite (mapped_class_of_position _ Hz), Hpos.
    split; [|split; [exact Hthr|split; reflexivity]].
    symmetry. apply firstn_S_nth. lia.
Qed.

End SimulatorRuns.

(** ** The claims on the simulator *)

Section SimulatorClaims.

Import Backtest Spec Examples.

(** One iteration of the loop on a peaked vector. *)
Lemma step_fires (prices : list Q) (probs_at : nat -> list Q) (st : locals)
  (pos c : nat) (v : Q) :
  peak_at (probs_at pos) c v ->
  entry_threshold (system st) <= v ->
  current_trend (system st) <> Some c ->
  exists st',
    step prices probs_at st pos = OK st' /\
    system st' = mkSystem (entry_threshold (system st)) (mapped_position c)
                          (Some c) /\
    positions st' = positions st ++ [mapped_position c].
Proof.
  intros Hp Hthr Hcur. unfold step.
  rewrite (update_peak_fires _ _ _ _ Hp Hthr Hcur). cbn [bind].
  eexists. split; [reflexivity|]. split; reflexivity.
Qed.

Lemma step_holds (prices : list Q) (probs_at : nat -> list Q) (st : locals)
  (pos c : nat) (v : Q) :
  peak_at (probs_at pos) c v ->
  current_trend (system st) = Some c ->
  exists st',
    step prices probs_at st pos = OK st' /\
    system st' = system st /\
    positions st' = positions st ++ [position (system st)].
Proof.
  intros Hp Hcur. unfold step.
  rewrite (update_peak_holds _ _ _ _ Hp Hcur). cbn [bind].
  eexists. split; [reflexivity|]. split; reflexivity.
Qed.



(** C2, as the code has it. From the initial state (Flat, no committed
    class) with threshold 0.90, three vectors peaked at 0.95 on class 0,
    0.95 on class 0 and 0.92 on class 4 give the positions Long, Long,
    Short; the reported trade count, the number of non-zero differences
    between consecutive reported positions, is 1: the entry from the
    initial Flat state is not a step-to-step change of the report. *)
Theorem hysteresis_trace (prices : list Q) (probs_at : nat -> list Q) :
  length prices = 3%nat ->
  peak_at (probs_at 0%nat) 0 (95 # 100) ->
  peak_at (probs_at 1%nat) 0 (95 # 100) ->
  peak_at (probs_at 2%nat) 4 (92 # 100) ->
  exists r,
    backtest_day prices probs_at = OK r /\
    r_positions r = [Long; Long; Short] /\
    r_num_trades r = 1%nat /\
    r_num_trades r = count_trades (r_positions r).
Proof.
  intros Hlen H0 H1 H2.
  assert (Hthr95 : default_threshold <= 95 # 100)
    by (unfold default_threshold, Qle; simpl; lia).
  assert (Hthr92 : default_threshold <= 92 # 100)
    by (unfold default_threshold, Qle; simpl; lia).
  destruct (step_fires prices probs_at start 0 0 _ H0) as (st1 & E1 & S1 & P1);
    [exact Hthr95 | discriminate |].
  destruct (step_holds prices probs_at st1 1 0 _ H1) as (st2 & E2 & S2 & P2);
    [rewrite S1; reflexivity |].
  destruct (step_fires prices probs_at st2 2 4 _ H2) as (st3 & E3 & S3 & P3);
    [rewrite S2, S1; exact Hthr92 | rewrite S2, S1; discriminate |].
  unfold backtest_day. rewrite Hlen, !run_S.
  change (run prices probs_at 0) with (OK start).
  cbn [bind]. rewrite E1. cbn [bind]. rewrite E2. cbn [bind]. rewrite E3.
  cbn [bind]. eexists. split; [reflexivity|].
  cbn [r_positions r_num_trades].
  rewrite P3, P2, P1, S1. cbn. repeat split.
Qed.

Lemma peaked_peak (c : nat) (v : Q) :
  (c < 7)%nat -> (1 - v) / 6 < v -> peak_at (peaked c v) c v.
Proof.
  intros Hc Hv. below7 c;
    (split; [reflexivity|]; split; [lia|]; split; [reflexivity|];
     intros j Hj Hne; below7 j; try congruence; exact Hv).
Qed.

Lemma hysteresis_trace_witness :
  exists r,
    backtest_day hysteresis_prices hysteresis_probs = OK r /\
    r_positions r = [Long; Long; Short] /\
    r_num_trades r = 1%nat /\
    r_num_trades r = count_trades (r_positions r).
Proof.
  apply (hysteresis_trace hysteresis_prices hysteresis_probs).
  - reflexivity.
  - apply peaked_peak; [lia | reflexivity].
  - apply peaked_peak; [lia | reflexivity].
  - apply peaked_peak; [lia | reflexivity].
Defined.

(** C2, as stated, fails: on that day the report does not carry a trade
    count of 2. *)
Lemma hysteresis_trade_count_not_two :
  ~ (exists r,
       backtest_day hysteresis_prices hysteresis_probs = OK r /\
       r_positions r = [Long; Long; Short] /\
       r_num_trades r = 2%nat).
Proof.
  intros (r & Hr & _ & Hn).
  vm_compute in Hr. inversion Hr; subst r. discriminate Hn.
Qed.

End SimulatorClaims.

Section ReportClaims.

Import Backtest Spec Examples.

Lemma backtest_day_inv (prices : list Q) (probs_at : nat -> list Q) (r : report) :
  backtest_day prices probs_at = OK r ->
  exists st,
    run prices probs_at (length prices) = OK st /\
    r_positions r = positions st /\ r_pnls r = pnls st /\
    r_final_pnl r = cumulative_pnl st /\
    r_num_trades r = count_trades (positions st).
Proof.
  unfold backtest_day. intros H. apply bind_OK_inv in H.
  destruct H as (st & Hrun & Hr). inversion Hr; subst r; simpl. eauto 10.
Qed.


(** C3. In the trace of a day, the PnL of an interval [pos, pos+1) inside
    the day is the position decided at [pos] times [close[pos+1] -
    close[pos]], added to the cumulative PnL; the last position of the
    day adds nothing; the final PnL is the sum over the intervals and the
    last entry of the trace. Every sequence of positions in {-1, 0, 1}
    is the position sequence of such a run. With prices 100, 101, 99, 99
    and positions 1, 1, -1, -1 the final PnL is -1. *)
Theorem pnl_accumulation (prices : list Q) (probs_at : nat -> list Q) (r : report) :
  backtest_day prices probs_at = OK r ->
  (length (r_positions r) = length prices /\
   length (r_pnls r) = length prices /\
   (forall pos, (pos + 1 < length prices)%nat ->
      nth pos (r_pnls r) 0 ==
      pnl_before (r_pnls r) pos
      + inject_Z (nth pos (r_positions r) 0%Z)
        * (nth (pos + 1) prices 0 - nth pos prices 0)) /\
   (forall pos, (pos + 1 = length prices)%nat ->
      nth pos (r_pnls r) 0 == pnl_before (r_pnls r) pos) /\
   r_final_pnl r == pnl_upto prices (r_positions r) (length prices) /\
   r_final_pnl r == pnl_before (r_pnls r) (length prices)) /\
  (forall ps, length ps = length prices -> Forall position_ok ps ->
     exists probs_at' r',
       backtest_day prices probs_at' = OK r' /\ r_positions r' = ps /\
       r_final_pnl r' == pnl_upto prices ps (length prices)) /\
  (exists r',
     backtest_day pnl_prices pnl_probs = OK r' /\
     r_positions r' = [1; 1; -1; -1]%Z /\ r_final_pnl r' == -1) /\
  pnl_upto pnl_prices [1; 1; -1; -1]%Z 4 == -1.
Proof.
  intros Hday.
  destruct (backtest_day_inv _ _ _ Hday) as (st & Hrun & Hps & Hpnls & Hfin & _).
  destruct (run_positions _ _ _ _ Hrun) as (Hplen & _ & _).
  destruct (run_pnls _ _ _ _ Hrun) as (Hlen & Hcum & Hnth).
  rewrite Hps, Hpnls, Hfin.
  assert (Hbefore : forall pos, (pos <= length prices)%nat ->
            pnl_before (pnls st) pos == pnl_upto prices (positions st) pos).
  { intros [|k] Hk; simpl; [reflexivity|]. apply Hnth. lia. }
  split; [|split; [|split]].
  - split; [exact Hplen|]. split; [exact Hlen|]. split; [|split; [|split]].
    + intros pos Hpos. rewrite Hnth by lia. simpl.
      rewrite Hbefore by lia. unfold interval_pnl.
      destruct (Nat.ltb_spec (pos + 1) (length prices)); [reflexivity|lia].
    + intros pos Hpos. rewrite Hnth by lia. simpl.
      rewrite Hbefore by lia. unfold interval_pnl.
      destruct (Nat.ltb_spec (pos + 1) (length prices)); [lia|].
      apply Qplus_0_r.
    + exact Hcum.
    + rewrite Hcum. symmetry. apply Hbefore. lia.
  - intros ps Hpslen Hok.
    destruct (run_realizes prices ps Hok (length ps)) as (st' & Hrun' & Hps' & _);
      [lia|].
    rewrite firstn_all in Hps'.
    eexists. eexists. split; [|split].
    + unfold backtest_day. rewrite <- Hpslen, Hrun'. reflexivity.
    + exact Hps'.
    + cbn [r_final_pnl]. rewrite <- Hps'.
      rewrite Hpslen in Hrun'.
      apply (run_pnls _ _ _ _ Hrun').
  - eexists. split; [vm_compute; reflexivity|]. split; reflexivity.
  - reflexivity.
Qed.

Lemma pnl_accumulation_witness :
  exists r,
    backtest_day pnl_prices pnl_probs = OK r /\
    nth 1 (r_pnls r) 0 ==
      pnl_before (r_pnls r) 1
      + inject_Z (nth 1 (r_positions r) 0%Z) * (101 - 99 - 4) /\
    r_final_pnl r == -1.
Proof.
  destruct (backtest_day pnl_prices pnl_probs) as [r|e] eqn:E;
    [|vm_compute in E; discriminate].
  exists r. split; [reflexivity|].
  destruct (pnl_accumulation pnl_prices pnl_probs r E)
    as ((_ & _ & Hstep & _ & Hfin & _) & _).
  split.
  - rewrite (Hstep 1%nat) by (simpl; lia).
    apply Qplus_comp; [reflexivity|]. apply Qmult_comp; reflexivity.
  - rewrite Hfin.
    vm_compute in E. inversion E; subst r. reflexivity.
Defined.




(** C10. A simulator starts Flat with no committed class. In every state
    reached by updates the position is -1, 0 or 1, and a committed class
    is one of the seven, the position being its image under the
    class-to-position mapping. Every position of a day's report is -1, 0
    or 1, and a day whose probability vectors all have length 7 yields a
    report with one position per price. *)
Theorem position_invariant (threshold : Q) (s : TradingSystem)
  (prices : list Q) (probs_at : nat -> list Q) :
  position (init threshold) = Flat /\
  current_trend (init threshold) = None /\
  (reachable threshold s ->
   position_ok (position s) /\
   forall c, current_trend s = Some c ->
             (c < 7)%nat /\ position s = mapped_position c /\
             dict_get TREND_POSITION c = OK (position s)) /\
  (forall r, backtest_day prices probs_at = OK r ->
             Forall position_ok (r_positions r)) /\
  ((forall pos, (pos < length prices)%nat -> length (probs_at pos) = 7%nat) ->
   exists r, backtest_day prices probs_at = OK r /\
             length (r_positions r) = length prices /\
             Forall position_ok (r_positions r)).
Proof.
  split; [reflexivity|]. split; [reflexivity|]. split; [|split].
  - intros Hreach.
    destruct (reachable_committed_ok _ _ Hreach) as (Hok & Hcom).
    split; [exact Hok|]. intros c Hc. destruct (Hcom c Hc) as (Hc7 & Hpos).
    split; [exact Hc7|]. split; [exact Hpos|].
    rewrite Hpos. apply trend_position_mapped. exact Hc7.
  - intros r Hday.
    destruct (backtest_day_inv _ _ _ Hday) as (st & Hrun & Hps & _).
    rewrite Hps. apply (run_positions _ _ _ _ Hrun).
  - intros Hlen.
    destruct (run_total prices probs_at (length prices) Hlen) as (st & Hrun).
    destruct (run_positions _ _ _ _ Hrun) as (Hplen & _ & Hall).
    eexists. split; [|split].
    + unfold backtest_day. rewrite Hrun. reflexivity.
    + exact Hplen.
    + exact Hall.
Qed.

Lemma position_invariant_witness :
  position_ok (position (mkSystem default_threshold Short (Some 4%nat))) /\
  (exists r, backtest_day pnl_prices pnl_probs = OK r /\
             length (r_positions r) = length pnl_prices /\
             Forall position_ok (r_positions r)).
Proof.
  assert (Hreach : reachable default_threshold
                     (mkSystem default_threshold Short (Some 4%nat))).
  { apply (reach_update default_threshold (init default_threshold) _
             (peaked 4 (92 # 100)) Short); [apply reach_init | reflexivity]. }
  destruct (position_invariant default_threshold
              (mkSystem default_threshold Short (Some 4%nat))
              pnl_prices pnl_probs) as (_ & _ & Hinv & _ & Htotal).
  split.
  - apply (Hinv Hreach).
  - apply Htotal. intros pos Hpos.
    do 4 (destruct pos as [|pos]; [reflexivity|]). simpl in Hpos. lia.
Defined.

End ReportClaims.

(** ** Properties of the index arithmetic *)

Section IndexLemmas.

Import Dataset WindowSpec.

Lemma floordiv_OK (a b : Z) : b <> 0%Z -> floordiv a b = OK (a / b)%Z.
Proof.
  intros Hb. unfold floordiv.
  destruct (Z.eqb_spec b 0); [contradiction | reflexivity].
Qed.

Lemma pymod_OK (a b : Z) : b <> 0%Z -> pymod a b = OK (a mod b)%Z.
Proof.
  intros Hb. unfold pymod.
  destruct (Z.eqb_spec b 0); [contradiction | reflexivity].
Qed.

(** What [__init__] leaves in the object. *)
Lemma init_inv (file : ParquetFile) (ws stride start : Z) (d : TradingDataset) :
  init file ws stride start = OK d ->
  stride <> 0%Z /\
  metadata_num_rows file = (metadata_num_row_groups file * 23400)%Z /\
  d = {| pf := file; window_size := ws; stride := stride;
         start_index := start;
         num_row_groups := metadata_num_row_groups file;
         bars_per_day := 23400%Z;
         windows_per_day := ((23400 - start) / stride)%Z;
         cached_row_group := (-1)%Z; cached_data := None |}.
Proof.
  unfold init, floordiv.
  destruct (Z.eqb_spec stride 0) as [|Hs]; [discriminate|]. cbn [bind].
  destruct (Z.eqb_spec (metadata_num_rows file)
                       (metadata_num_row_groups file * 23400)) as [Hrows|];
    [|discriminate].
  intros [= <-]. auto.
Qed.

Lemma init_wf (file : ParquetFile) (ws stride start : Z) (d : TradingDataset) :
  init file ws stride start = OK d -> wf d.
Proof.
  intros H. destruct (init_inv _ _ _ _ _ H) as (_ & _ & ->).
  split; [reflexivity|]. split; [reflexivity|]. left. split; reflexivity.
Qed.

(** The number of windows of a day times the stride fits in what is left
    of the day after the start offset. *)
Lemma windows_fit (stride start : Z) :
  (1 <= stride)%Z -> (0 <= start < 23400)%Z ->
  (0 <= (23400 - start) / stride)%Z /\
  ((23400 - start) / stride * stride <= 23400 - start)%Z.
Proof.
  intros Hs Hst. split.
  - apply Z.div_pos; lia.
  - rewrite Z.mul_comm. apply Z.mul_div_le. lia.
Qed.

Lemma position_in_day (stride start wpd local : Z) :
  (1 <= stride)%Z -> (0 <= start < 23400)%Z ->
  wpd = ((23400 - start) / stride)%Z ->
  (0 <= local < wpd)%Z ->
  (0 <= start + local * stride < 23400)%Z.
Proof.
  intros Hs Hst -> Hl.
  destruct (windows_fit stride start Hs Hst) as (_ & Hfit). nia.
Qed.

Lemma range_length (n : Z) : length (range n) = Z.to_nat n.
Proof. unfold range. rewrite length_map, length_seq. reflexivity. Qed.

Lemma range_nonpos (n : Z) : (n <= 0)%Z -> range n = [].
Proof.
  intros H. unfold range. replace (Z.to_nat n) with 0%nat by lia. reflexivity.
Qed.

Lemma seq_from (a w : nat) : seq a w = map (fun k => (a + k)%nat) (seq 0 w).
Proof.
  revert a; induction w as [|w IH]; intros a; simpl; [reflexivity|].
  rewrite Nat.add_0_r. f_equal.
  rewrite IH, <- seq_shift, map_map. apply map_ext. intros k. lia.
Qed.

(** [range(a + w)] is [range(a)] followed by [a, a+1, ..., a+w-1]. *)
Lemma range_add (a w : Z) :
  (0 <= a)%Z -> (0 <= w)%Z ->
  range (a + w) = range a ++ map (fun offset => (a + offset)%Z) (range w).
Proof.
  intros Ha Hw. unfold range.
  rewrite Z2Nat.inj_add by lia. rewrite seq_app, map_app. f_equal.
  rewrite map_map. simpl.
  rewrite (seq_from (Z.to_nat a) (Z.to_nat w)).
  rewrite map_map. apply map_ext. intros k. lia.
Qed.

(** The indices yielded for the first [n] row groups taken in order. *)
Lemma iter_identity_pos (n : nat) (w : Z) :
  (0 < w)%Z ->
  flat_map (fun rg => map (fun offset => (rg * w + offset)%Z) (range w))
           (map Z.of_nat (seq 0 n))
  = range (Z.of_nat n * w).
Proof.
  intros Hw. induction n as [|n IH]; [reflexivity|].
  rewrite seq_S, map_app, flat_map_app, IH. cbn [map flat_map plus].
  rewrite app_nil_r.
  replace (Z.of_nat (Datatypes.S n) * w)%Z with (Z.of_nat n * w + w)%Z by lia.
  rewrite range_add by nia. reflexivity.
Qed.

Lemma iter_identity (groups w : Z) :
  (0 <= groups)%Z ->
  flat_map (fun rg => map (fun offset => (rg * w + offset)%Z) (range w))
           (range groups)
  = range (groups * w).
Proof.
  intros Hg. destruct (Z_le_gt_dec w 0) as [Hw|Hw].
  - rewrite (range_nonpos w Hw), (range_nonpos (groups * w)) by nia.
    induction (range groups) as [|x xs IH]; [reflexivity | exact IH].
  - unfold range at 2. rewrite iter_identity_pos by lia.
    rewrite Z2Nat.id by lia. reflexivity.
Qed.

End IndexLemmas.

(** ** The claims on the index mapping and the sampler *)

Section IndexClaims.

Import Dataset WindowSpec Examples.

Lemma one_day_rows : metadata_num_rows one_day = 23400%Z.
Proof.
  unfold metadata_num_rows, one_day. cbn [concat].
  rewrite app_nil_r, repeat_length. reflexivity.
Qed.

Lemma one_day_dataset_init : init one_day 60 1 0 = OK one_day_dataset.
Proof.
  unfold init. cbn [floordiv bind Z.eqb]. rewrite one_day_rows. reflexivity.
Qed.

Lemma one_day_dataset_len : len one_day_dataset = 23400%Z.
Proof. reflexivity. Qed.

(** C4. In a dataset constructed with [stride >= 1] and [0 <= start_index
    < 23400], [windows_per_day = (23400 - start_index) / stride] and the
    number of samples is [num_row_groups * windows_per_day]. For an index
    below that number the mapping returns the day [idx / windows_per_day]
    and the position [start_index + (idx mod windows_per_day) * stride],
    the day lies in [0, num_row_groups) and the position in [0, 23400).
    The mapping reads only the construction parameters: it gives the same
    result whatever the cache holds. *)
Theorem index_mapping (file : ParquetFile) (ws stride start : Z)
  (d : TradingDataset) (idx : Z) :
  init file ws stride start = OK d ->
  (1 <= stride)%Z -> (0 <= start < 23400)%Z ->
  (0 <= idx < len d)%Z ->
  windows_per_day d = ((23400 - start) / stride)%Z /\
  len d = (metadata_num_row_groups file * windows_per_day d)%Z /\
  _get_row_group_and_offset d idx =
    OK ((idx / windows_per_day d)%Z,
        (start + (idx mod windows_per_day d) * stride)%Z) /\
  (0 <= idx / windows_per_day d < num_row_groups d)%Z /\
  (0 <= start + (idx mod windows_per_day d) * stride < 23400)%Z /\
  (forall crg cdata,
     _get_row_group_and_offset
       (mkDataset (pf d) (window_size d) (Dataset.stride d) (start_index d)
                  (num_row_groups d) (bars_per_day d) (windows_per_day d)
                  crg cdata) idx
     = _get_row_group_and_offset d idx) /\
  (forall r1 r2,
     _get_row_group_and_offset d idx = r1 ->
     _get_row_group_and_offset d idx = r2 -> r1 = r2).
Proof.
  intros Hinit Hs Hst Hidx.
  destruct (init_inv _ _ _ _ _ Hinit) as (_ & _ & ->).
  unfold len in *. cbn [num_row_groups windows_per_day] in *.
  destruct (windows_fit stride start Hs Hst) as (Hw0 & _).
  set (wpd := ((23400 - start) / stride)%Z) in *.
  assert (Hg : (0 <= metadata_num_row_groups file)%Z)
    by (unfold metadata_num_row_groups; lia).
  assert (Hwpd : (0 < wpd)%Z) by nia.
  assert (Hlocal : (0 <= idx mod wpd < wpd)%Z) by (apply Z.mod_pos_bound; lia).
  split; [reflexivity|]. split; [reflexivity|]. split; [|split; [|split; [|split]]].
  - unfold _get_row_group_and_offset.
    cbn [windows_per_day start_index Dataset.stride].
    rewrite floordiv_OK, pymod_OK by lia. reflexivity.
  - split; [apply Z.div_pos; lia|].
    apply Z.div_lt_upper_bound; [lia | nia].
  - apply (position_in_day stride start wpd); auto.
  - intros crg cdata. reflexivity.
  - intros r1 r2 <- <-. reflexivity.
Qed.

Lemma index_mapping_witness :
  _get_row_group_and_offset one_day_dataset 12345 = OK (0%Z, 12345%Z).
Proof.
  destruct (index_mapping one_day 60 1 0 one_day_dataset 12345)
    as (_ & _ & Hmap & _).
  - exact one_day_dataset_init.
  - lia.
  - lia.
  - rewrite one_day_dataset_len. lia.
  - rewrite Hmap. reflexivity.
Defined.

(** C5, as the code has it. The mapping has no range check. For an index
    at or past the number of samples, with [windows_per_day > 0], it
    returns a day at or past [num_row_groups] and a position inside the
    day; [__getitem__] then fails when the file is asked for that row
    group, and leaves the object as it was. With [windows_per_day = 0]
    every index fails in the division. *)
Theorem index_past_end (d : TradingDataset) (idx : Z) :
  wf d ->
  (1 <= stride d)%Z -> (0 <= start_index d < 23400)%Z ->
  windows_per_day d = ((23400 - start_index d) / stride d)%Z ->
  (len d <= idx)%Z ->
  ((0 < windows_per_day d)%Z ->
   exists day pos,
     _get_row_group_and_offset d idx = OK (day, pos) /\
     day = (idx / windows_per_day d)%Z /\
     (num_row_groups d <= day)%Z /\ (0 <= pos < 23400)%Z /\
     __getitem__ d idx = (d, Err (ArchiveError day))) /\
  (windows_per_day d = 0%Z ->
   _get_row_group_and_offset d idx = Err ZeroDivisionError /\
   __getitem__ d idx = (d, Err ZeroDivisionError)).
Proof.
  intros (Hbars & Hgroups & Hcache) Hs Hst Hwpd Hidx.
  destruct (windows_fit _ _ Hs Hst) as (Hw0 & _). rewrite <- Hwpd in Hw0.
  unfold len in Hidx.
  assert (Hg : (0 <= num_row_groups d)%Z)
    by (rewrite Hgroups; unfold metadata_num_row_groups; lia).
  split.
  - intros Hpos.
    assert (Hlocal : (0 <= idx mod windows_per_day d < windows_per_day d)%Z)
      by (apply Z.mod_pos_bound; lia).
    assert (Hday : (num_row_groups d <= idx / windows_per_day d)%Z)
      by (apply Z.div_le_lower_bound; [lia | nia]).
    assert (Hp : (0 <= start_index d + idx mod windows_per_day d * stride d
                  < 23400)%Z)
      by (apply (position_in_day (stride d) (start_index d) (windows_per_day d));
          auto).
    assert (Hmap : _get_row_group_and_offset d idx =
                   OK ((idx / windows_per_day d)%Z,
                       (start_index d + idx mod windows_per_day d * stride d)%Z)).
    { unfold _get_row_group_and_offset.
      rewrite floordiv_OK, pymod_OK by lia. reflexivity. }
    eexists. eexists. split; [exact Hmap|]. split; [reflexivity|].
    split; [exact Hday|]. split; [exact Hp|].
    unfold __getitem__. rewrite Hmap. unfold get_features_for.
    rewrite Hbars.
    destruct (Z.leb_spec 0 (start_index d + idx mod windows_per_day d * stride d));
      [|lia].
    destruct (Z.ltb_spec (start_index d + idx mod windows_per_day d * stride d)
                         23400); [|lia].
    cbn [andb]. unfold _load_row_group.
    assert (Hread : read_row_group (pf d) (idx / windows_per_day d)
                    = Err (ArchiveError (idx / windows_per_day d))).
    { unfold read_row_group.
      unfold metadata_num_row_groups in Hgroups.
      destruct (Z.ltb_spec (idx / windows_per_day d) (Z.of_nat (length (pf d))));
        [lia|]. rewrite andb_false_r. reflexivity. }
    destruct (Z.eqb_spec (cached_row_group d) (idx / windows_per_day d))
      as [Heq|Hne]; cbn [negb].
    + exfalso. destruct Hcache as [(Hc & _)|(df & Hdf & _)].
      * lia.
      * rewrite Heq, Hread in Hdf. discriminate.
    + rewrite Hread. reflexivity.
  - intros Hzero. unfold __getitem__, _get_row_group_and_offset.
    rewrite Hzero. split; reflexivity.
Qed.

Lemma one_day_dataset_wf : wf one_day_dataset.
Proof. exact (init_wf _ _ _ _ _ one_day_dataset_init). Qed.

Lemma index_past_end_witness :
  exists day pos,
    _get_row_group_and_offset one_day_dataset 23400 = OK (day, pos) /\
    day = 1%Z /\
    __getitem__ one_day_dataset 23400 = (one_day_dataset, Err (ArchiveError day)).
Proof.
  destruct (index_past_end one_day_dataset 23400) as (Hpast & _).
  - exact one_day_dataset_wf.
  - simpl; lia.
  - simpl; lia.
  - reflexivity.
  - rewrite one_day_dataset_len. lia.
  - destruct Hpast as (day & pos & Hmap & Hday & _ & _ & Hget);
      [simpl; lia|].
    exists day, pos. split; [exact Hmap|]. split; [|exact Hget].
    rewrite Hday. reflexivity.
Defined.

(** C5, as stated, fails: index 23400 of a one-day dataset is past the
    end, and the mapping returns day 1. *)
Lemma mapping_past_end_returns :
  (len one_day_dataset <= 23400)%Z /\
  _get_row_group_and_offset one_day_dataset 23400 = OK (1%Z, 0%Z) /\
  ~ (0 <= 1 < num_row_groups one_day_dataset)%Z /\
  ~ (exists e, _get_row_group_and_offset one_day_dataset 23400 = Err e).
Proof.
  split; [rewrite one_day_dataset_len; lia|]. split; [reflexivity|].
  split; [simpl; lia|]. intros (e & H). discriminate H.
Qed.

(** C9. Without shuffling, the sampler of a constructed dataset yields
    0, 1, ..., [len - 1]: the days in the order 0, 1, ... and, within
    each day, its [windows_per_day] consecutive indices in ascending
    order. *)
Theorem sampler_identity (file : ParquetFile) (ws stride start : Z)
  (d : TradingDataset) (np_random_shuffle : list Z -> list Z) :
  init file ws stride start = OK d ->
  __iter__ np_random_shuffle (sampler_init d false) = range (len d) /\
  __iter__ np_random_shuffle (sampler_init d false) =
    flat_map (fun day =>
                map (fun offset => (day * windows_per_day d + offset)%Z)
                    (range (windows_per_day d)))
             (range (num_row_groups d)) /\
  (forall k, (k < Z.to_nat (len d))%nat ->
     nth k (__iter__ np_random_shuffle (sampler_init d false)) 0%Z
     = Z.of_nat k) /\
  length (__iter__ np_random_shuffle (sampler_init d false))
    = Z.to_nat (sampler_len (sampler_init d false)).
Proof.
  intros Hinit.
  destruct (init_inv _ _ _ _ _ Hinit) as (_ & _ & ->).
  assert (Hiter : forall w g sh,
            (0 <= g)%Z ->
            __iter__ sh (mkSampler
                           (mkDataset file ws stride start g 23400 w (-1) None)
                           false g w) = range (g * w)).
  { intros w g sh Hg. unfold __iter__. cbn [shuffle rs_num_row_groups
      rs_windows_per_day]. apply iter_identity. exact Hg. }
  assert (Hg : (0 <= metadata_num_row_groups file)%Z)
    by (unfold metadata_num_row_groups; lia).
  unfold sampler_init, sampler_len, len.
  cbn [num_row_groups windows_per_day dataset].
  rewrite Hiter by exact Hg.
  split; [reflexivity|]. split; [|split].
  - symmetry. apply iter_identity. exact Hg.
  - intros k Hk. unfold range.
    rewrite (map_nth Z.of_nat _ 0%nat), seq_nth by exact Hk. reflexivity.
  - apply range_length.
Qed.

Lemma sampler_identity_witness :
  __iter__ (@rev Z) (sampler_init one_day_dataset false)
  = range (len one_day_dataset).
Proof.
  exact (proj1 (sampler_identity one_day 60 1 0 one_day_dataset (@rev Z)
                  one_day_dataset_init)).
Defined.

End IndexClaims.

(** ** Properties of the window builder *)

Section WindowLemmas.

Import Dataset WindowSpec.

Lemma in_range (n i : Z) : In i (range n) <-> (0 <= i < n)%Z.
Proof.
  unfold range. rewrite in_map_iff. split.
  - intros (k & <- & Hk). apply in_seq in Hk. lia.
  - intros Hi. exists (Z.to_nat i). split; [lia|]. apply in_seq. lia.
Qed.

(** Rounding up [(pos + 1 - (s - 1)) / s] is rounding down [(pos + 1) / s]. *)
Lemma ceil_div_boundary (s n : Z) :
  (0 < s)%Z -> (- ((s - 1 - n) / s) = n / s)%Z.
Proof.
  intros Hs.
  pose proof (Z.div_mod (s - 1 - n) s ltac:(lia)) as H1.
  pose proof (Z.mod_pos_bound (s - 1 - n) s Hs) as H2.
  pose proof (Z.div_mod n s ltac:(lia)) as H3.
  pose proof (Z.mod_pos_bound n s Hs) as H4.
  nia.
Qed.

Lemma succ_div (s n : Z) :
  (0 < s)%Z -> (0 <= n)%Z ->
  ((n + 1) mod s = 0 -> (n + 1) / s = n / s + 1 /\ s - 1 + n / s * s = n)%Z /\
  ((n + 1) mod s <> 0 -> (n + 1) / s = n / s)%Z.
Proof.
  intros Hs Hn.
  pose proof (Z.div_mod n s ltac:(lia)) as H1.
  pose proof (Z.mod_pos_bound n s Hs) as H2.
  destruct (Z.eq_dec (n mod s + 1) s) as [Hfull|Hpart].
  - assert (Hq : (n / s + 1 = (n + 1) / s)%Z)
      by (apply (Z.div_unique (n + 1) s (n / s + 1) 0); lia).
    assert (Hr : (0 = (n + 1) mod s)%Z)
      by (apply (Z.mod_unique (n + 1) s (n / s + 1) 0); lia).
    split; intros H; [split; lia | lia].
  - assert (Hq : (n / s = (n + 1) / s)%Z)
      by (apply (Z.div_unique (n + 1) s (n / s) (n mod s + 1)); lia).
    assert (Hr : (n mod s + 1 = (n + 1) mod s)%Z)
      by (apply (Z.mod_unique (n + 1) s (n / s) (n mod s + 1)); lia).
    split; intros H; [lia | lia].
Qed.

(** The boundaries among 0, ..., n-1 are s-1, 2s-1, ..., one for each
    multiple of [s] up to [n]. *)
Lemma boundaries_enum (s : Z) (n : nat) :
  (0 < s)%Z ->
  filter (is_boundary s) (map Z.of_nat (seq 0 n)) =
  map (fun k => (s - 1 + Z.of_nat k * s)%Z) (seq 0 (Z.to_nat (Z.of_nat n / s))).
Proof.
  intros Hs. induction n as [|n IH].
  - rewrite Z.div_0_l by lia. reflexivity.
  - rewrite seq_S, map_app, filter_app, IH. cbn [plus map filter].
    destruct (succ_div s (Z.of_nat n) Hs ltac:(lia)) as (Hyes & Hno).
    pose proof (Z.div_pos (Z.of_nat n) s ltac:(lia) Hs) as Hq.
    unfold is_boundary.
    replace (Z.of_nat (Datatypes.S n)) with (Z.of_nat n + 1)%Z by lia.
    destruct (Z.eqb_spec ((Z.of_nat n + 1) mod s) 0) as [E|E].
    + destruct (Hyes E) as (Hdiv & Hlast). rewrite Hdiv.
      rewrite Z2Nat.inj_add by lia.
      change (Z.to_nat 1) with 1%nat. rewrite Nat.add_1_r, seq_S, map_app.
      cbn [plus map]. rewrite Z2Nat.id by lia. rewrite Hlast. reflexivity.
    + rewrite (Hno E), app_nil_r. reflexivity.
Qed.

Lemma boundaries_upto_enum (s pos : Z) :
  (0 < s)%Z -> (0 <= pos)%Z ->
  boundaries_upto s pos =
  map (fun k => (s - 1 + Z.of_nat k * s)%Z) (seq 0 (Z.to_nat ((pos + 1) / s))).
Proof.
  intros Hs Hp. unfold boundaries_upto, range.
  rewrite boundaries_enum by exact Hs. rewrite Z2Nat.id by lia. reflexivity.
Qed.

(** [np.arange(s - 1, pos + 1, s)] collects the boundaries up to [pos]. *)
Lemma arange_boundaries (s first pos : Z) :
  (0 < s)%Z -> (0 <= pos)%Z -> first = (s - 1)%Z ->
  arange first (pos + 1) s = OK (boundaries_upto s pos).
Proof.
  intros Hs Hp ->. unfold arange.
  destruct (Z.eqb_spec s 0); [lia|].
  rewrite ceil_div_boundary by exact Hs.
  rewrite boundaries_upto_enum by assumption. reflexivity.
Qed.

(** The test of the source, on the boundaries up to [pos]: the array is
    empty or ends before [pos] exactly when [pos] is not a boundary. *)
Lemma last_differs_boundary (s pos : Z) :
  (0 < s)%Z -> (0 <= pos)%Z ->
  empty_or_last_differs (boundaries_upto s pos) pos
  = OK (negb (is_boundary s pos)).
Proof.
  intros Hs Hp. rewrite boundaries_upto_enum by assumption.
  pose proof (Z.div_mod (pos + 1) s ltac:(lia)) as H1.
  pose proof (Z.mod_pos_bound (pos + 1) s Hs) as H2.
  pose proof (Z.div_pos (pos + 1) s ltac:(lia) Hs) as H3.
  unfold empty_or_last_differs, is_boundary.
  rewrite length_map, length_seq.
  destruct (Z.to_nat ((pos + 1) / s)) as [|q] eqn:Eq.
  - cbn [Nat.eqb]. f_equal.
    destruct (Z.eqb_spec ((pos + 1) mod s) 0); [|reflexivity]. nia.
  - cbn [Nat.eqb]. unfold index. rewrite length_map, length_seq.
    cbn [Z.ltb Z.compare].
    replace (-1 + Z.of_nat (Datatypes.S q))%Z with (Z.of_nat q) by lia.
    destruct (Z.leb_spec 0 (Z.of_nat q)); [|lia].
    rewrite Nat2Z.id, nth_error_map, seq_S, nth_error_app2
      by (rewrite length_seq; lia).
    rewrite length_seq, Nat.sub_diag. cbn [nth_error option_map plus bind].
    f_equal. f_equal.
    destruct (Z.eqb_spec (s - 1 + Z.of_nat q * s) pos);
      destruct (Z.eqb_spec ((pos + 1) mod s) 0); try reflexivity; nia.
Qed.

Lemma append_if_not_boundary (b : bool) (a : list Z) (pos : Z) :
  (if negb b then a ++ [pos] else a) = a ++ (if b then [] else [pos]).
Proof. destruct b; simpl; [rewrite app_nil_r|]; reflexivity. Qed.

(** Every index of a window is a position of the day up to [pos]. *)
Lemma window_indices_bounds (s pos : Z) :
  (0 <= pos)%Z ->
  Forall (fun i => (0 <= i <= pos)%Z) (window_indices s pos).
Proof.
  intros Hp. unfold window_indices, boundaries_upto.
  apply Forall_app. split.
  - apply Forall_forall. intros i Hi. apply filter_In in Hi.
    destruct Hi as (Hi & _). apply in_range in Hi. lia.
  - destruct (is_boundary s pos); constructor; [lia | constructor].
Qed.

Lemma window_indices_nonempty (s pos : Z) :
  (0 < s)%Z -> (0 <= pos)%Z -> window_indices s pos <> [].
Proof.
  intros Hs Hp. unfold window_indices.
  destruct (is_boundary s pos) eqn:E.
  - rewrite app_nil_r. unfold boundaries_upto.
    intros Hnil.
    assert (Hin : In pos (filter (is_boundary s) (range (pos + 1)))).
    { apply filter_In. split; [apply in_range; lia | exact E]. }
    rewrite Hnil in Hin. destruct Hin.
  - intros H. apply app_eq_nil in H. destruct H as (_ & H). discriminate.
Qed.

(** *** numpy primitives *)

Lemma slice_bound_nonneg (len : nat) (i : Z) :
  (0 <= i)%Z -> slice_bound len i = Nat.min (Z.to_nat i) len.
Proof.
  intros Hi. unfold slice_bound. destruct (Z.ltb_spec i 0); [lia|reflexivity].
Qed.

Lemma slice_bound_neg (len : nat) (n : Z) :
  (0 < n)%Z -> slice_bound len (- n) = (len - Z.to_nat n)%nat.
Proof.
  intros Hn. unfold slice_bound. destruct (Z.ltb_spec (- n) 0); lia.
Qed.

(** [a[-n:]] with [n = min(len(a), slots)] keeps the last [n] entries. *)
Lemma slice_from_last (all : list Z) (slots : Z) :
  (0 < slots)%Z ->
  slice_from all (- Z.min (Z.of_nat (length all)) slots)
  = last_n (Nat.min (length all) (Z.to_nat slots)) all.
Proof.
  intros Hs. unfold slice_from, last_n.
  destruct all as [|x xs]; [rewrite !skipn_nil; reflexivity|].
  rewrite slice_bound_neg by (cbn [length]; lia). f_equal. lia.
Qed.

Lemma last_n_length {A : Type} (n : nat) (xs : list A) :
  (n <= length xs)%nat -> length (last_n n xs) = n.
Proof. intros H. unfold last_n. rewrite length_skipn. lia. Qed.

Lemma last_n_Forall {A : Type} (P : A -> Prop) (n : nat) (xs : list A) :
  Forall P xs -> Forall P (last_n n xs).
Proof.
  intros H. unfold last_n. rewrite <- (firstn_skipn (length xs - n) xs) in H.
  apply Forall_app in H. apply H.
Qed.

Lemma index_ok {A : Type} (xs : list A) (i : Z) (d : A) :
  (0 <= i < Z.of_nat (length xs))%Z ->
  index xs i = OK (nth (Z.to_nat i) xs d).
Proof.
  intros Hi. unfold index.
  destruct (Z.ltb_spec i 0); [lia|]. destruct (Z.leb_spec 0 i); [|lia].
  rewrite (nth_error_nth' xs d) by lia. reflexivity.
Qed.

Lemma take_ok (xs : list Q) (indices : list Z) :
  Forall (fun i => (0 <= i < Z.of_nat (length xs))%Z) indices ->
  take xs indices = OK (map (fun i => nth (Z.to_nat i) xs 0) indices).
Proof.
  induction 1 as [|i rest Hi Hrest IH]; [reflexivity|].
  cbn [take map]. rewrite (index_ok xs i 0 Hi). cbn [bind].
  rewrite IH. reflexivity.
Qed.

Lemma zip_with_length {A B C : Type} (f : A -> B -> C) (xs : list A)
  (ys : list B) :
  length (zip_with f xs ys) = Nat.min (length xs) (length ys).
Proof.
  revert ys; induction xs as [|x xs IH]; intros [|y ys]; simpl; auto.
Qed.

(** An assignment whose right-hand side has the length of the target. *)
Lemma assign_col_tail (pre tail : list row) (start : Z) (j : column3)
  (vals : list Q) :
  start = Z.of_nat (length pre) -> length vals = length tail ->
  assign_col (pre ++ tail) start j vals
  = OK (pre ++ zip_with (set_field j) vals tail).
Proof.
  intros -> Hlen. unfold assign_col.
  rewrite slice_bound_nonneg by lia. rewrite Nat2Z.id, length_app.
  replace (Nat.min (length pre) (length pre + length tail)) with (length pre)
    by lia.
  rewrite skipn_app, firstn_app, Nat.sub_diag, skipn_all, firstn_all.
  cbn [skipn firstn app]. rewrite app_nil_r, Hlen, Nat.eqb_refl. reflexivity.
Qed.

Lemma assign_col_same_length (buf : list row) (start : Z) (j : column3)
  (vals : list Q) :
  length vals = (length buf - slice_bound (length buf) start)%nat ->
  exists buf', assign_col buf start j vals = OK buf' /\
               length buf' = length buf.
Proof.
  intros Hlen. unfold assign_col.
  rewrite length_skipn, Hlen, Nat.eqb_refl.
  eexists. split; [reflexivity|].
  rewrite length_app, length_firstn, zip_with_length, length_skipn.
  assert (slice_bound (length buf) start <= length buf)%nat
    by (unfold slice_bound; destruct (Z.ltb_spec start 0); lia).
  lia.
Qed.

(** The three column assignments build the rows of the kept indices. *)
Lemma zip_rows (high low close : list Q) (kept : list Z) :
  zip_with (set_field col2) (map (fun i => nth (Z.to_nat i) close 0) kept)
    (zip_with (set_field col1) (map (fun i => nth (Z.to_nat i) low 0) kept)
       (zip_with (set_field col0) (map (fun i => nth (Z.to_nat i) high 0) kept)
          (repeat zero_row (length kept))))
  = map (row_at high low close) kept.
Proof.
  induction kept as [|i kept IH]; [reflexivity|].
  cbn [map length repeat zip_with]. rewrite IH. reflexivity.
Qed.

End WindowLemmas.

Section BuildFeatures.

Import Dataset WindowSpec.

Lemma to_columns_length (df : RowGroup) :
  columns_length (to_columns df) (length df).
Proof. unfold columns_length, to_columns; cbn. rewrite !length_map. tauto. Qed.

Lemma slice_length {A : Type} (xs : list A) (a b : Z) :
  (0 <= a <= b)%Z -> (b <= Z.of_nat (length xs))%Z ->
  length (slice xs a b) = (Z.to_nat b - Z.to_nat a)%nat.
Proof.
  intros Hab Hb. unfold slice.
  rewrite !slice_bound_nonneg by lia.
  rewrite length_firstn, length_skipn. lia.
Qed.

(** The take-and-assign sequence of one window, for the kept indices. *)
Lemma window_assigns {A : Type} (slots : nat) (high low close : list Q)
  (kept : list Z) (start : Z) (k : list row -> result A) :
  (length kept <= slots)%nat ->
  start = Z.of_nat (slots - length kept) ->
  Forall (fun i => (0 <= i < Z.of_nat (length high))%Z) kept ->
  Forall (fun i => (0 <= i < Z.of_nat (length low))%Z) kept ->
  Forall (fun i => (0 <= i < Z.of_nat (length close))%Z) kept ->
  (vals <- take high kept ;;
   features <- assign_col (repeat zero_row slots) start col0 vals ;;
   vals <- take low kept ;;
   features <- assign_col features start col1 vals ;;
   vals <- take close kept ;;
   features <- assign_col features start col2 vals ;;
   k features)
  = k (repeat zero_row (slots - length kept) ++ map (row_at high low close) kept).
Proof.
  intros Hlen Hstart Hh Hl Hc.
  assert (Hpre : start = Z.of_nat (length (repeat zero_row (slots - length kept))))
    by (rewrite repeat_length; exact Hstart).
  assert (Hrep : repeat zero_row slots =
                 repeat zero_row (slots - length kept)
                 ++ repeat zero_row (length kept))
    by (rewrite <- repeat_app; f_equal; lia).
  rewrite Hrep.
  rewrite (take_ok high kept Hh). cbn [bind].
  rewrite assign_col_tail
    by (try exact Hpre; rewrite length_map, repeat_length; reflexivity).
  cbn [bind]. rewrite (take_ok low kept Hl). cbn [bind].
  rewrite assign_col_tail
    by (try exact Hpre;
        rewrite zip_with_length, !length_map, repeat_length; lia).
  cbn [bind]. rewrite (take_ok close kept Hc). cbn [bind].
  rewrite assign_col_tail
    by (try exact Hpre;
        rewrite !zip_with_length, !length_map, repeat_length; lia).
  cbn [bind]. rewrite zip_rows. reflexivity.
Qed.

(** The kept indices of a window of [slots] rows. *)
Lemma kept_indices (s pos : Z) (slots : nat) (n : nat) :
  (0 <= pos < Z.of_nat n)%Z ->
  let kept := last_n (Nat.min (length (window_indices s pos)) slots)
                     (window_indices s pos) in
  (length kept <= slots)%nat /\
  length kept = Nat.min (length (window_indices s pos)) slots /\
  Forall (fun i => (0 <= i < Z.of_nat n)%Z) kept.
Proof.
  intros Hpos kept.
  assert (Hlen : length kept = Nat.min (length (window_indices s pos)) slots)
    by (apply last_n_length; lia).
  split; [lia|]. split; [exact Hlen|].
  apply last_n_Forall.
  eapply Forall_impl; [|apply window_indices_bounds; lia].
  cbv beta. intros i Hi. lia.
Qed.

(** [build_features] on a day with at least [pos + 1] rows: it returns,
    and the 1m and 5m buffers are the windows of the document. *)
Lemma build_features_windows (ws : Z) (data : Columns) (pos : Z) (n : nat) :
  (0 <= ws)%Z -> columns_length data n -> (0 <= pos < Z.of_nat n)%Z ->
  exists f1s,
    length f1s = Z.to_nat ws /\
    build_features ws data pos =
    OK {| features_1s := f1s;
          features_1m := window 60 60 (cdf_high_1m data) (cdf_low_1m data)
                                (cdf_close_1m data) pos;
          features_5m := window 78 300 (cdf_high_5m data) (cdf_low_5m data)
                                (cdf_close_5m data) pos;
          s_session := nth (Z.to_nat pos) (session data) 0%Z;
          s_trend := nth (Z.to_nat pos) (trend data) 0%Z |}.
Proof.
  intros Hws (Hse & Htr & Hh1 & Hl1 & Hc1 & Hhm & Hlm & Hcm & Hh5 & Hl5 & Hc5)
         Hpos.
  unfold build_features. cbv zeta.
  (* 1s buffer *)
  unfold np_zeros at 1. destruct (Z.ltb_spec ws 0) as [|_]; [lia|]. cbn [bind].
  destruct (assign_col_same_length (repeat zero_row (Z.to_nat ws))
              (ws - Z.min (pos + 1) ws) col0
              (slice (cdf_high_1s data) (Z.max 0 (pos + 1 - ws)) (pos + 1)))
    as (b1 & E1 & L1).
  { rewrite slice_length by lia. rewrite repeat_length.
    rewrite slice_bound_nonneg by lia. lia. }
  rewrite E1. cbn [bind].
  destruct (assign_col_same_length b1 (ws - Z.min (pos + 1) ws) col1
              (slice (cdf_low_1s data) (Z.max 0 (pos + 1 - ws)) (pos + 1)))
    as (b2 & E2 & L2).
  { rewrite slice_length by lia. rewrite L1, repeat_length.
    rewrite slice_bound_nonneg by lia. lia. }
  rewrite E2. cbn [bind].
  destruct (assign_col_same_length b2 (ws - Z.min (pos + 1) ws) col2
              (slice (cdf_close_1s data) (Z.max 0 (pos + 1 - ws)) (pos + 1)))
    as (b3 & E3 & L3).
  { rewrite slice_length by lia. rewrite L2, L1, repeat_length.
    rewrite slice_bound_nonneg by lia. lia. }
  rewrite E3. cbn [bind].
  (* index arrays *)
  rewrite (arange_boundaries 60 59 pos) by lia. cbn [bind].
  rewrite (last_differs_boundary 60 pos) by lia. cbn [bind].
  rewrite (arange_boundaries 300 299 pos) by lia. cbn [bind].
  rewrite (last_differs_boundary 300 pos) by lia. cbn [bind].
  rewrite !append_if_not_boundary.
  change (boundaries_upto 60 pos ++ (if is_boundary 60 pos then [] else [pos]))
    with (window_indices 60 pos).
  change (boundaries_upto 300 pos ++ (if is_boundary 300 pos then [] else [pos]))
    with (window_indices 300 pos).
  (* 1m buffer *)
  destruct (kept_indices 60 pos 60 n Hpos) as (Hk1 & Hk1' & Hb1).
  destruct (kept_indices 300 pos 78 n Hpos) as (Hk5 & Hk5' & Hb5).
  change (np_zeros 60) with (OK (repeat zero_row 60)).
  change (np_zeros 78) with (OK (repeat zero_row 78)).
  cbn [bind].
  rewrite !(slice_from_last (window_indices 60 pos) 60) by lia.
  rewrite !(slice_from_last (window_indices 300 pos) 78) by lia.
  change (Z.to_nat 60) with 60%nat. change (Z.to_nat 78) with 78%nat.
  rewrite (window_assigns 60 (cdf_high_1m data) (cdf_low_1m data)
             (cdf_close_1m data));
    [ | exact Hk1 | lia
      | rewrite Hhm; exact Hb1 | rewrite Hlm; exact Hb1 | rewrite Hcm; exact Hb1 ].
  rewrite (window_assigns 78 (cdf_high_5m data) (cdf_low_5m data)
             (cdf_close_5m data));
    [ | exact Hk5 | lia
      | rewrite Hh5; exact Hb5 | rewrite Hl5; exact Hb5 | rewrite Hc5; exact Hb5 ].
  (* labels *)
  rewrite (index_ok (session data) pos 0%Z) by lia. cbn [bind].
  rewrite (index_ok (trend data) pos 0%Z) by lia. cbn [bind].
  exists b3. split; [rewrite L3, L2, L1; apply repeat_length | reflexivity].
Qed.

End BuildFeatures.

(** ** The claims on the loader *)

Section LoaderClaims.

Import Dataset WindowSpec Examples.

Lemma bind_no_row_count_error {A B : Type} (r : result A) (k : A -> result B) :
  not_row_count_error r -> (forall a, not_row_count_error (k a)) ->
  not_row_count_error (x <- r ;; k x).
Proof.
  unfold not_row_count_error. destruct r as [a|e]; cbn [bind]; intros Hr Hk.
  - apply Hk.
  - intros [= ->]. apply Hr. reflexivity.
Qed.

Lemma OK_no_row_count_error {A : Type} (a : A) : not_row_count_error (OK a).
Proof. discriminate. Qed.

Lemma index_no_row_count_error {A : Type} (xs : list A) (i : Z) :
  not_row_count_error (index xs i).
Proof.
  unfold index.
  destruct (0 <=? _)%Z; [destruct (nth_error _ _)|]; discriminate.
Qed.

Lemma take_no_row_count_error {A : Type} (xs : list A) (indices : list Z) :
  not_row_count_error (take xs indices).
Proof.
  induction indices as [|i rest IH]; cbn [take]; [discriminate|].
  apply bind_no_row_count_error; [apply index_no_row_count_error|]. intros x.
  apply bind_no_row_count_error; [exact IH|]. intros ys. discriminate.
Qed.

Lemma np_zeros_no_row_count_error (n : Z) : not_row_count_error (np_zeros n).
Proof. unfold np_zeros. destruct (n <? 0)%Z; discriminate. Qed.

Lemma assign_col_no_row_count_error (buf : list row) (start : Z) (j : column3)
  (vals : list Q) :
  not_row_count_error (assign_col buf start j vals).
Proof.
  unfold assign_col.
  destruct (_ =? _)%nat; [discriminate|].
  destruct (_ =? _)%nat; discriminate.
Qed.

Lemma arange_no_row_count_error (start stop step : Z) :
  not_row_count_error (arange start stop step).
Proof. unfold arange. destruct (step =? 0)%Z; discriminate. Qed.

Lemma last_differs_no_row_count_error (a : list Z) (pos : Z) :
  not_row_count_error (empty_or_last_differs a pos).
Proof.
  unfold empty_or_last_differs. destruct (_ =? _)%nat; [discriminate|].
  apply bind_no_row_count_error; [apply index_no_row_count_error|].
  intros x. discriminate.
Qed.

Lemma build_features_no_row_count_error (ws : Z) (data : Columns) (pos : Z) :
  not_row_count_error (build_features ws data pos).
Proof.
  unfold build_features. cbv zeta.
  repeat (apply bind_no_row_count_error;
          [ first [ apply np_zeros_no_row_count_error
                  | apply assign_col_no_row_count_error
                  | apply arange_no_row_count_error
                  | apply last_differs_no_row_count_error
                  | apply take_no_row_count_error
                  | apply index_no_row_count_error ]
          | intros ? ]).
  apply OK_no_row_count_error.
Qed.

Lemma load_no_row_count_error (d : TradingDataset) (rg : Z) :
  not_row_count_error (snd (_load_row_group d rg)).
Proof.
  unfold _load_row_group, read_row_group.
  destruct (negb _); [|discriminate].
  destruct (_ && _); discriminate.
Qed.

Lemma get_features_no_row_count_error (d : TradingDataset) (rg pos : Z) :
  not_row_count_error (snd (get_features_for d rg pos)).
Proof.
  unfold get_features_for.
  destruct (_ && _); [|discriminate].
  pose proof (load_no_row_count_error d rg) as Hload.
  destruct (_load_row_group d rg) as [d' [u|e]]; cbn [snd] in *.
  - destruct (cached_data d'); [|discriminate]. cbn [snd].
    apply build_features_no_row_count_error.
  - intros [= ->]. apply Hload. reflexivity.
Qed.

(** C6. With a non-zero stride, constructing the dataset on a file whose
    row count is not [num_row_groups * 23400] fails with the row-count
    assertion, and on a file whose row count is that product it returns
    the dataset, with an empty cache. The assertion belongs to the
    constructor alone: no load, no read of features and no item access
    raises it. *)
Theorem row_count_check (file : ParquetFile) (ws stride start : Z) :
  stride <> 0%Z ->
  (metadata_num_rows file <> (metadata_num_row_groups file * 23400)%Z ->
   init file ws stride start = Err (AssertionError RowCountMismatch)) /\
  (metadata_num_rows file = (metadata_num_row_groups file * 23400)%Z ->
   exists d, init file ws stride start = OK d /\ pf d = file /\ wf d /\
             cached_data d = None) /\
  (forall d rg, not_row_count_error (snd (_load_row_group d rg))) /\
  (forall d rg pos, not_row_count_error (snd (get_features_for d rg pos))) /\
  (forall d idx, not_row_count_error (snd (__getitem__ d idx))).
Proof.
  intros Hs. split; [|split; [|split; [|split]]].
  - intros Hrows. unfold init. rewrite floordiv_OK by exact Hs. cbn [bind].
    destruct (Z.eqb_spec (metadata_num_rows file)
                         (metadata_num_row_groups file * 23400));
      [contradiction | reflexivity].
  - intros Hrows.
    destruct (init file ws stride start) as [d|e] eqn:E.
    + exists d. pose proof (init_wf _ _ _ _ _ E) as Hwf.
      destruct (init_inv _ _ _ _ _ E) as (_ & _ & ->). auto.
    + exfalso. unfold init in E. rewrite floordiv_OK in E by exact Hs.
      cbn [bind] in E. rewrite Hrows, Z.eqb_refl in E. discriminate.
  - apply load_no_row_count_error.
  - apply get_features_no_row_count_error.
  - intros d idx. unfold __getitem__, _get_row_group_and_offset,
      floordiv, pymod.
    destruct (windows_per_day d =? 0)%Z; cbn [bind snd]; [discriminate|].
    apply get_features_no_row_count_error.
Qed.

Lemma short_day_rows : metadata_num_rows short_day = 23399%Z.
Proof.
  unfold metadata_num_rows, short_day. cbn [concat].
  rewrite app_nil_r, repeat_length. reflexivity.
Qed.

Lemma row_count_check_witness :
  init short_day 60 1 0 = Err (AssertionError RowCountMismatch) /\
  exists d, init one_day 60 1 0 = OK d /\ pf d = one_day /\ wf d /\
            cached_data d = None.
Proof.
  split.
  - apply (row_count_check short_day 60 1 0); [discriminate|].
    rewrite short_day_rows. discriminate.
  - apply (row_count_check one_day 60 1 0); [discriminate|].
    rewrite one_day_rows. reflexivity.
Defined.

Lemma window_indices_In (s pos i : Z) :
  (0 <= pos)%Z ->
  In i (window_indices s pos) <->
  ((0 <= i <= pos)%Z /\ ((i + 1) mod s = 0)%Z) \/ i = pos.
Proof.
  intros Hp. unfold window_indices, boundaries_upto.
  rewrite in_app_iff, filter_In, in_range. unfold is_boundary.
  destruct (Z.eqb_spec ((pos + 1) mod s) 0) as [E|E]; cbn [In].
  - rewrite Z.eqb_eq. split.
    + intros [(Hi & Hb)|[]]. left. split; [lia | exact Hb].
    + intros [(Hi & Hb)| ->]; left; (split; [lia | assumption]).
  - rewrite Z.eqb_eq. split.
    + intros [(Hi & Hb)|[<-|[]]]; [left; split; [lia | exact Hb] | right; reflexivity].
    + intros [(Hi & Hb)| ->]; [left; split; [lia | exact Hb] | right; left; reflexivity].
Qed.

(** C7. For a position of the day, on a loaded day that has that row,
    [get_features_for] returns a sample whose 1m buffer is the window of
    60 rows over the boundaries 59, 119, 179, ... up to the position,
    followed by the position itself when it is not a boundary: the last
    [min(count, 60)] of these indices, their (high, low, close) rows
    right-aligned, zero rows in front. The 5m buffer is the same
    construction with the boundaries 299, 599, ... and 78 rows. At
    position 0 each buffer is zero but for its last row, the row of
    position 0. *)
Theorem window_construction (d : TradingDataset) (rg pos : Z) (df : RowGroup) :
  wf d -> (0 <= window_size d)%Z ->
  read_row_group (pf d) rg = OK df ->
  (0 <= pos < 23400)%Z -> (pos < Z.of_nat (length df))%Z ->
  exists d' sample,
    get_features_for d rg pos = (d', OK sample) /\
    wf d' /\ cached_row_group d' = rg /\
    cached_data d' = Some (to_columns df) /\
    features_1m sample =
      window 60 60 (map b_cdf_high_1m df) (map b_cdf_low_1m df)
             (map b_cdf_close_1m df) pos /\
    features_5m sample =
      window 78 300 (map b_cdf_high_5m df) (map b_cdf_low_5m df)
             (map b_cdf_close_5m df) pos /\
    length (features_1m sample) = 60%nat /\
    length (features_5m sample) = 78%nat /\
    (forall i, In i (window_indices 60 pos) <->
               ((0 <= i <= pos)%Z /\ ((i + 1) mod 60 = 0)%Z) \/ i = pos) /\
    (forall i, In i (window_indices 300 pos) <->
               ((0 <= i <= pos)%Z /\ ((i + 1) mod 300 = 0)%Z) \/ i = pos) /\
    (pos = 0%Z ->
     features_1m sample =
       repeat zero_row 59
       ++ [row_at (map b_cdf_high_1m df) (map b_cdf_low_1m df)
                  (map b_cdf_close_1m df) 0] /\
     features_5m sample =
       repeat zero_row 77
       ++ [row_at (map b_cdf_high_5m df) (map b_cdf_low_5m df)
                  (map b_cdf_close_5m df) 0]).
Proof.
  intros (Hbars & Hgroups & Hcache) Hws Hread Hpos Hrow.
  destruct (build_features_windows (window_size d) (to_columns df) pos
              (length df) Hws (to_columns_length df) ltac:(lia))
    as (f1s & Hf1s & Hbuild).
  assert (Hget :
    exists d',
      get_features_for d rg pos =
        (d', build_features (window_size d) (to_columns df) pos) /\
      wf d' /\ cached_row_group d' = rg /\
      cached_data d' = Some (to_columns df)).
  { unfold get_features_for. rewrite Hbars.
    destruct (Z.leb_spec 0 pos); [|lia].
    destruct (Z.ltb_spec pos 23400); [|lia]. cbn [andb].
    unfold _load_row_group.
    destruct (Z.eqb_spec (cached_row_group d) rg) as [Heq|Hne]; cbn [negb].
    - destruct Hcache as [(Hc & _)|(df' & Hdf' & Hdata)].
      + exfalso. rewrite <- Heq, Hc in Hread.
        unfold read_row_group in Hread. cbn in Hread. discriminate.
      + rewrite Heq, Hread in Hdf'. injection Hdf' as <-.
        rewrite Hdata. exists d. repeat split; auto.
        right. exists df. rewrite Heq. auto.
    - rewrite Hread. cbn [cached_data window_size].
      eexists. split; [reflexivity|].
      split; [|split; reflexivity].
      split; [exact Hbars|]. split; [exact Hgroups|].
      right. exists df. cbn [pf cached_row_group cached_data]. auto. }
  destruct Hget as (d' & Hget & Hwf' & Hrg' & Hdata').
  rewrite Hbuild in Hget.
  eexists. eexists. split; [exact Hget|].
  cbn [features_1m features_5m to_columns
       cdf_high_1m cdf_low_1m cdf_close_1m cdf_high_5m cdf_low_5m cdf_close_5m].
  split; [exact Hwf'|]. split; [exact Hrg'|]. split; [exact Hdata'|].
  split; [reflexivity|]. split; [reflexivity|].
  destruct (kept_indices 60 pos 60 (length df) ltac:(lia)) as (Hk1 & _ & _).
  destruct (kept_indices 300 pos 78 (length df) ltac:(lia)) as (Hk5 & _ & _).
  split; [|split; [|split; [|split]]].
  - unfold window. rewrite length_app, repeat_length, length_map. lia.
  - unfold window. rewrite length_app, repeat_length, length_map. lia.
  - intros i. apply window_indices_In. lia.
  - intros i. apply window_indices_In. lia.
  - intros ->. split; reflexivity.
Qed.

Lemma window_construction_witness :
  exists d' sample,
    get_features_for one_day_dataset 0 0 = (d', OK sample) /\
    features_1m sample =
      repeat zero_row 59
      ++ [row_at (map b_cdf_high_1m (nth 0 one_day []))
                 (map b_cdf_low_1m (nth 0 one_day []))
                 (map b_cdf_close_1m (nth 0 one_day [])) 0] /\
    features_5m sample =
      repeat zero_row 77
      ++ [row_at (map b_cdf_high_5m (nth 0 one_day []))
                 (map b_cdf_low_5m (nth 0 one_day []))
                 (map b_cdf_close_5m (nth 0 one_day [])) 0].
Proof.
  destruct (window_construction one_day_dataset 0 0 (nth 0 one_day []))
    as (d' & sample & Hget & _ & _ & _ & _ & _ & _ & _ & _ & _ & Hzero).
  - exact one_day_dataset_wf.
  - cbn [window_size one_day_dataset]. lia.
  - reflexivity.
  - lia.
  - unfold one_day. cbn [nth]. rewrite repeat_length. lia.
  - exists d', sample. split; [exact Hget|]. apply Hzero. reflexivity.
Defined.

End LoaderClaims.

(** ** Further properties of the simulator *)

Section SimulatorExtras.

Import Backtest Spec Examples.





(** X2. Hysteresis: an update that returned leaves a state on which the
    same vector changes nothing and returns the same position. *)
Theorem update_idempotent (s s' : TradingSystem) (p : list Q) (z : Z) :
  update s p = (s', OK z) ->
  update s' p = (s', OK z).
Proof.
  intros Hup.
  destruct p as [|x xs]; [discriminate|].
  destruct (max_argmax_spec (x :: xs)) as (m & c & Hm & Hc & _);
    [discriminate|].
  destruct (update_cases s (x :: xs) m c Hm Hc) as (Hfire & Hkey & Hhold).
  destruct (update_cases s' (x :: xs) m c Hm Hc) as (_ & _ & Hhold').
  destruct (Qle_bool (entry_threshold s) m && trend_differs c (current_trend s))
    eqn:E.
  - apply fires_dec in E.
    destruct (Nat.lt_ge_cases c 7) as [H7|H7].
    + rewrite (Hfire E H7) in Hup. injection Hup as <- <-.
      rewrite Hhold'; [reflexivity|]. intros (_ & Hne). apply Hne. reflexivity.
    + rewrite (Hkey E H7) in Hup. discriminate.
  - assert (Hno : ~ fires s m c) by (rewrite <- fires_dec; congruence).
    rewrite (Hhold Hno) in Hup. injection Hup as <- <-.
    apply Hhold. exact Hno.
Qed.

Lemma update_idempotent_witness :
  update (mkSystem default_threshold Short (Some 4%nat)) (peaked 4 (92 # 100))
  = (mkSystem default_threshold Short (Some 4%nat), OK Short).
Proof.
  apply (update_idempotent (init default_threshold)
           (mkSystem default_threshold Short (Some 4%nat))
           (peaked 4 (92 # 100)) Short).
  reflexivity.
Defined.

(** X3. An update that raises [KeyError] has already committed the class:
    the class is 7 or more, the position is the old one, and the same
    vector given again returns that stale position without an error. *)
Theorem key_error_then_retry (s s' : TradingSystem) (p : list Q) (k : nat) :
  update s p = (s', Err (KeyError k)) ->
  (7 <= k)%nat /\
  s' = mkSystem (entry_threshold s) (position s) (Some k) /\
  current_trend s <> Some k /\
  update s' p = (s', OK (position s)).
Proof.
  intros Hup.
  destruct p as [|x xs]; [discriminate|].
  destruct (max_argmax_spec (x :: xs)) as (m & c & Hm & Hc & _);
    [discriminate|].
  destruct (update_cases s (x :: xs) m c Hm Hc) as (Hfire & Hkey & Hhold).
  destruct (Qle_bool (entry_threshold s) m && trend_differs c (current_trend s))
    eqn:E.
  - apply fires_dec in E.
    destruct (Nat.lt_ge_cases c 7) as [H7|H7].
    + rewrite (Hfire E H7) in Hup. discriminate.
    + rewrite (Hkey E H7) in Hup. injection Hup as <- <-.
      split; [exact H7|]. split; [reflexivity|]. split; [apply E|].
      apply (proj2 (proj2 (update_cases
               (mkSystem (entry_threshold s) (position s) (Some c))
               (x :: xs) m c Hm Hc))).
      intros (_ & Hne). apply Hne. reflexivity.
  - rewrite Hhold in Hup by (rewrite <- fires_dec; congruence). discriminate.
Qed.

Lemma key_error_then_retry_witness :
  update (mkSystem default_threshold 0%Z (Some 8%nat)) ten_classes
  = (mkSystem default_threshold 0%Z (Some 8%nat), OK 0%Z).
Proof.
  destruct (key_error_then_retry (init default_threshold)
              (mkSystem default_threshold 0%Z (Some 8%nat)) ten_classes 8)
    as (_ & _ & _ & Hretry).
  - reflexivity.
  - exact Hretry.
Defined.

End SimulatorExtras.

Section ReportExtras.

Import Backtest Spec Examples.














End ReportExtras.
(** ** Further properties of the loader *)

Section SampleLemmas.

Import Dataset WindowSpec.

Lemma skipn_nth_cons {A : Type} (xs : list A) (a : nat) (d : A) :
  (a < length xs)%nat -> skipn a xs = nth a xs d :: skipn (Datatypes.S a) xs.
Proof.
  revert a; induction xs as [|x xs IH]; intros [|a] H; simpl in *;
    try lia; try reflexivity.
  apply IH. lia.
Qed.

Lemma firstn_skipn_seq {A : Type} (xs : list A) (a n : nat) (d : A) :
  (a + n <= length xs)%nat ->
  firstn n (skipn a xs) = map (fun i => nth i xs d) (seq a n).
Proof.
  revert a; induction n as [|n IH]; intros a H; [reflexivity|].
  rewrite (skipn_nth_cons xs a d) by lia. cbn [firstn seq map]. f_equal.
  apply IH. lia.
Qed.

(** [xs[a:b]] inside the array: the entries at a, a+1, ..., b-1. *)
Lemma slice_rows (xs : list Q) (a b : Z) :
  (0 <= a <= b)%Z -> (b <= Z.of_nat (length xs))%Z ->
  slice xs a b =
  map (fun i => nth (Z.to_nat i) xs 0)
      (map Z.of_nat (seq (Z.to_nat a) (Z.to_nat b - Z.to_nat a))).
Proof.
  intros Hab Hb. unfold slice. rewrite !slice_bound_nonneg by lia.
  replace (Nat.min (Z.to_nat b) (length xs) - Nat.min (Z.to_nat a) (length xs))%nat
    with (Z.to_nat b - Z.to_nat a)%nat by lia.
  replace (Nat.min (Z.to_nat a) (length xs)) with (Z.to_nat a) by lia.
  rewrite (firstn_skipn_seq xs _ _ 0) by lia. rewrite map_map.
  apply map_ext. intros i. rewrite Nat2Z.id. reflexivity.
Qed.

(** The three column assignments of a buffer, for the kept indices. *)
Lemma column_assigns {A : Type} (slots : nat) (high low close : list Q)
  (kept : list Z) (start : Z) (k : list row -> result A) :
  (length kept <= slots)%nat ->
  start = Z.of_nat (slots - length kept) ->
  (features <- assign_col (repeat zero_row slots) start col0
                 (map (fun i => nth (Z.to_nat i) high 0) kept) ;;
   features <- assign_col features start col1
                 (map (fun i => nth (Z.to_nat i) low 0) kept) ;;
   features <- assign_col features start col2
                 (map (fun i => nth (Z.to_nat i) close 0) kept) ;;
   k features)
  = k (repeat zero_row (slots - length kept) ++ map (row_at high low close) kept).
Proof.
  intros Hlen Hstart.
  assert (Hpre : start = Z.of_nat (length (repeat zero_row (slots - length kept))))
    by (rewrite repeat_length; exact Hstart).
  assert (Hrep : repeat zero_row slots =
                 repeat zero_row (slots - length kept)
                 ++ repeat zero_row (length kept))
    by (rewrite <- repeat_app; f_equal; lia).
  rewrite Hrep.
  rewrite assign_col_tail
    by (try exact Hpre; rewrite length_map, repeat_length; reflexivity).
  cbn [bind].
  rewrite assign_col_tail
    by (try exact Hpre;
        rewrite zip_with_length, !length_map, repeat_length; lia).
  cbn [bind].
  rewrite assign_col_tail
    by (try exact Hpre;
        rewrite !zip_with_length, !length_map, repeat_length; lia).
  cbn [bind]. rewrite zip_rows. reflexivity.
Qed.

(** [build_features] on a day with at least [pos + 1] rows returns the
    sample of the position. *)
Lemma build_features_sample_at (ws : Z) (data : Columns) (pos : Z) (n : nat) :
  (0 <= ws)%Z -> columns_length data n -> (0 <= pos < Z.of_nat n)%Z ->
  build_features ws data pos = OK (sample_at ws data pos).
Proof.
  intros Hws (Hse & Htr & Hh1 & Hl1 & Hc1 & Hhm & Hlm & Hcm & Hh5 & Hl5 & Hc5)
         Hpos.
  unfold build_features. cbv zeta.
  (* 1s buffer *)
  unfold np_zeros at 1. destruct (Z.ltb_spec ws 0) as [|_]; [lia|]. cbn [bind].
  rewrite !slice_rows by lia.
  replace (Z.to_nat (pos + 1) - Z.to_nat (Z.max 0 (pos + 1 - ws)))%nat
    with (Z.to_nat (Z.min (pos + 1) ws)) by lia.
  replace (Z.to_nat (Z.max 0 (pos + 1 - ws)))
    with (Z.to_nat (pos + 1) - Z.to_nat (Z.min (pos + 1) ws))%nat by lia.
  rewrite (column_assigns (Z.to_nat ws) (cdf_high_1s data) (cdf_low_1s data)
             (cdf_close_1s data));
    [ | rewrite length_map, length_seq; lia
      | rewrite length_map, length_seq; lia ].
  rewrite length_map, length_seq.
  (* index arrays *)
  rewrite (arange_boundaries 60 59 pos) by lia. cbn [bind].
  rewrite (last_differs_boundary 60 pos) by lia. cbn [bind].
  rewrite (arange_boundaries 300 299 pos) by lia. cbn [bind].
  rewrite (last_differs_boundary 300 pos) by lia. cbn [bind].
  rewrite !append_if_not_boundary.
  change (boundaries_upto 60 pos ++ (if is_boundary 60 pos then [] else [pos]))
    with (window_indices 60 pos).
  change (boundaries_upto 300 pos ++ (if is_boundary 300 pos then [] else [pos]))
    with (window_indices 300 pos).
  destruct (kept_indices 60 pos 60 n Hpos) as (Hk1 & Hk1' & Hb1).
  destruct (kept_indices 300 pos 78 n Hpos) as (Hk5 & Hk5' & Hb5).
  change (np_zeros 60) with (OK (repeat zero_row 60)).
  change (np_zeros 78) with (OK (repeat zero_row 78)).
  cbn [bind].
  rewrite !(slice_from_last (window_indices 60 pos) 60) by lia.
  rewrite !(slice_from_last (window_indices 300 pos) 78) by lia.
  change (Z.to_nat 60) with 60%nat. change (Z.to_nat 78) with 78%nat.
  rewrite (window_assigns 60 (cdf_high_1m data) (cdf_low_1m data)
             (cdf_close_1m data));
    [ | exact Hk1 | lia
      | rewrite Hhm; exact Hb1 | rewrite Hlm; exact Hb1 | rewrite Hcm; exact Hb1 ].
  rewrite (window_assigns 78 (cdf_high_5m data) (cdf_low_5m data)
             (cdf_close_5m data));
    [ | exact Hk5 | lia
      | rewrite Hh5; exact Hb5 | rewrite Hl5; exact Hb5 | rewrite Hc5; exact Hb5 ].
  rewrite (index_ok (session data) pos 0%Z) by lia. cbn [bind].
  rewrite (index_ok (trend data) pos 0%Z) by lia. cbn [bind].
  reflexivity.
Qed.

(** *** The cache *)

Lemma read_row_group_OK (file : ParquetFile) (rg : Z) (df : RowGroup) :
  read_row_group file rg = OK df ->
  (0 <= rg < Z.of_nat (length file))%Z /\ df = nth (Z.to_nat rg) file [].
Proof.
  unfold read_row_group.
  destruct (Z.leb_spec 0 rg); destruct (Z.ltb_spec rg (Z.of_nat (length file)));
    cbn [andb]; intros [= <-]. split; [lia | reflexivity].
Qed.

Lemma read_row_group_Err (file : ParquetFile) (rg : Z) (e : error) :
  read_row_group file rg = Err e ->
  ~ (0 <= rg < Z.of_nat (length file))%Z /\ e = ArchiveError rg.
Proof.
  unfold read_row_group.
  destruct (Z.leb_spec 0 rg); destruct (Z.ltb_spec rg (Z.of_nat (length file)));
    cbn [andb]; intros [= <-]; split; try lia; reflexivity.
Qed.

Lemma with_cache_wf (d : TradingDataset) (rg : Z) (df : RowGroup) :
  wf d -> read_row_group (pf d) rg = OK df -> wf (with_cache d rg df).
Proof.
  intros (Hbars & Hgroups & _) Hread.
  split; [exact Hbars|]. split; [exact Hgroups|].
  right. exists df. split; [exact Hread | reflexivity].
Qed.

(** A coherent cache that names [rg] holds the columns of [rg]. *)
Lemma cached_is_read (d : TradingDataset) (df : RowGroup) :
  wf d -> read_row_group (pf d) (cached_row_group d) = OK df ->
  d = with_cache d (cached_row_group d) df.
Proof.
  intros (_ & _ & Hcache) Hread.
  destruct Hcache as [(Hc & _)|(df' & Hdf' & Hdata)].
  - rewrite Hc in Hread. apply read_row_group_OK in Hread. lia.
  - rewrite Hread in Hdf'. injection Hdf' as <-.
    destruct d. cbn in *. subst. reflexivity.
Qed.

(** [_load_row_group] on a coherent object: a row group of the file ends
    up in the cache, a missing one leaves the object as it was. *)
Lemma load_read (d : TradingDataset) (rg : Z) :
  wf d -> rg <> (-1)%Z ->
  _load_row_group d rg =
  match read_row_group (pf d) rg with
  | OK df => (with_cache d rg df, OK tt)
  | Err e => (d, Err e)
  end.
Proof.
  intros Hwf Hrg. unfold _load_row_group.
  destruct (Z.eqb_spec (cached_row_group d) rg) as [Heq|Hne]; cbn [negb].
  - destruct (read_row_group (pf d) rg) as [df|e] eqn:Hread.
    + rewrite <- Heq in Hread. rewrite <- Heq.
      rewrite <- (cached_is_read d df Hwf Hread). reflexivity.
    + exfalso. destruct Hwf as (_ & _ & [(Hc & _)|(df & Hdf & _)]).
      * lia.
      * rewrite Heq, Hread in Hdf. discriminate.
  - destruct (read_row_group (pf d) rg); reflexivity.
Qed.

Lemma load_wf (d : TradingDataset) (rg : Z) :
  wf d ->
  wf (fst (_load_row_group d rg)) /\
  without_cache (fst (_load_row_group d rg)) = without_cache d.
Proof.
  intros Hwf. unfold _load_row_group.
  destruct (negb _); [|split; [exact Hwf | reflexivity]].
  destruct (read_row_group (pf d) rg) as [df|e] eqn:Hread; cbn [fst].
  - split; [|reflexivity]. exact (with_cache_wf d rg df Hwf Hread).
  - split; [exact Hwf | reflexivity].
Qed.

Lemma get_features_wf (d : TradingDataset) (rg pos : Z) :
  wf d ->
  wf (fst (get_features_for d rg pos)) /\
  without_cache (fst (get_features_for d rg pos)) = without_cache d.
Proof.
  intros Hwf. unfold get_features_for.
  destruct (_ && _); [|split; [exact Hwf | reflexivity]].
  pose proof (load_wf d rg Hwf) as Hload.
  destruct (_load_row_group d rg) as [d' [u|e]]; cbn [fst] in *.
  - destruct (cached_data d'); exact Hload.
  - exact Hload.
Qed.

(** [get_features_for] on a coherent object, in terms of the file. *)
Lemma get_features_read (d : TradingDataset) (rg pos : Z) :
  wf d -> rg <> (-1)%Z ->
  get_features_for d rg pos =
  if (0 <=? pos)%Z && (pos <? 23400)%Z then
    match read_row_group (pf d) rg with
    | OK df => (with_cache d rg df,
                build_features (window_size d) (to_columns df) pos)
    | Err e => (d, Err e)
    end
  else (d, Err (AssertionError PosOutOfRange)).
Proof.
  intros Hwf Hrg. unfold get_features_for.
  rewrite (proj1 Hwf).
  destruct (_ && _); [|reflexivity].
  rewrite (load_read d rg Hwf Hrg).
  destruct (read_row_group (pf d) rg); reflexivity.
Qed.

Lemma get_features_loaded (d : TradingDataset) (rg pos : Z) (df : RowGroup) :
  wf d -> (0 <= window_size d)%Z ->
  read_row_group (pf d) rg = OK df ->
  (0 <= pos < 23400)%Z -> (pos < Z.of_nat (length df))%Z ->
  get_features_for d rg pos =
  (with_cache d rg df, OK (sample_at (window_size d) (to_columns df) pos)).
Proof.
  intros Hwf Hws Hread Hpos Hrow.
  assert (Hrg : rg <> (-1)%Z) by (apply read_row_group_OK in Hread; lia).
  rewrite (get_features_read d rg pos Hwf Hrg), Hread.
  destruct (Z.leb_spec 0 pos); [|lia].
  destruct (Z.ltb_spec pos 23400); [|lia]. cbn [andb].
  rewrite (build_features_sample_at (window_size d) (to_columns df) pos
             (length df) Hws (to_columns_length df)) by lia.
  reflexivity.
Qed.

End SampleLemmas.

Section WindowExtras.

Import Dataset WindowSpec Examples.

Lemma one_day_read : read_row_group one_day 0 = OK (nth 0 one_day []).
Proof. reflexivity. Qed.

Lemma one_day_length : length (nth 0 one_day []) = Z.to_nat 23400.
Proof. unfold one_day. cbn [nth]. apply repeat_length. Qed.

Lemma window_1s_length (ws : Z) (high low close : list Q) (pos : Z) :
  length (window_1s ws high low close pos) = Z.to_nat ws.
Proof.
  unfold window_1s. rewrite length_app, repeat_length, !length_map, length_seq.
  lia.
Qed.

(** X8. The 1s buffer and the labels. For a position of a loaded day that
    has that row, the 1s buffer returned by [get_features_for] has
    [window_size] rows: the (high, low, close) rows of the last
    [min(pos + 1, window_size)] seconds up to the position, in order,
    right-aligned, with zero rows in front. From position
    [window_size - 1] on there is no padding; before it the rows are
    those of seconds 0 to [pos]. The two labels are those of the row at
    the position. *)
Theorem one_second_window (d : TradingDataset) (rg pos : Z) (df : RowGroup) :
  wf d -> (0 <= window_size d)%Z ->
  read_row_group (pf d) rg = OK df ->
  (0 <= pos < 23400)%Z -> (pos < Z.of_nat (length df))%Z ->
  exists d' sample,
    get_features_for d rg pos = (d', OK sample) /\
    features_1s sample =
      window_1s (window_size d) (map b_cdf_high_1s df) (map b_cdf_low_1s df)
                (map b_cdf_close_1s df) pos /\
    length (features_1s sample) = Z.to_nat (window_size d) /\
    ((window_size d <= pos + 1)%Z ->
     features_1s sample =
       map (row_at (map b_cdf_high_1s df) (map b_cdf_low_1s df)
                   (map b_cdf_close_1s df))
           (map Z.of_nat (seq (Z.to_nat (pos + 1 - window_size d))
                              (Z.to_nat (window_size d))))) /\
    ((pos + 1 < window_size d)%Z ->
     features_1s sample =
       repeat zero_row (Z.to_nat (window_size d - (pos + 1)))
       ++ map (row_at (map b_cdf_high_1s df) (map b_cdf_low_1s df)
                      (map b_cdf_close_1s df))
              (range (pos + 1))) /\
    s_session sample = nth (Z.to_nat pos) (map b_session df) 0%Z /\
    s_trend sample = nth (Z.to_nat pos) (map b_trend df) 0%Z.
Proof.
  intros Hwf Hws Hread Hpos Hrow.
  eexists. eexists.
  split; [exact (get_features_loaded d rg pos df Hwf Hws Hread Hpos Hrow)|].
  cbn [features_1s s_session s_trend sample_at to_columns
       cdf_high_1s cdf_low_1s cdf_close_1s session trend].
  split; [reflexivity|]. split; [apply window_1s_length|].
  split; [|split; [|split; reflexivity]].
  - intros Hfull. unfold window_1s.
    replace (Z.to_nat (Z.min (pos + 1) (window_size d)))
      with (Z.to_nat (window_size d)) by lia.
    rewrite Nat.sub_diag. cbn [repeat app].
    replace (Z.to_nat (pos + 1) - Z.to_nat (window_size d))%nat
      with (Z.to_nat (pos + 1 - window_size d)) by lia.
    reflexivity.
  - intros Hpart. unfold window_1s, range.
    replace (Z.to_nat (Z.min (pos + 1) (window_size d)))
      with (Z.to_nat (pos + 1)) by lia.
    rewrite Nat.sub_diag.
    replace (Z.to_nat (window_size d) - Z.to_nat (pos + 1))%nat
      with (Z.to_nat (window_size d - (pos + 1))) by lia.
    reflexivity.
Qed.

Lemma one_second_window_witness :
  exists d' sample,
    get_features_for one_day_dataset 0 2 = (d', OK sample) /\
    features_1s sample =
      repeat zero_row 57
      ++ map (row_at (map b_cdf_high_1s (nth 0 one_day []))
                     (map b_cdf_low_1s (nth 0 one_day []))
                     (map b_cdf_close_1s (nth 0 one_day [])))
             [0; 1; 2]%Z.
Proof.
  destruct (one_second_window one_day_dataset 0 2 (nth 0 one_day []))
    as (d' & sample & Hget & _ & _ & _ & Hpart & _).
  - exact one_day_dataset_wf.
  - cbn [window_size one_day_dataset]. lia.
  - exact one_day_read.
  - lia.
  - rewrite one_day_length. lia.
  - exists d', sample. split; [exact Hget|]. apply Hpart.
    cbn [window_size one_day_dataset]. lia.
Defined.

(** *** The current bar closes every window *)

Lemma range_snoc (pos : Z) : (0 <= pos)%Z -> range (pos + 1) = range pos ++ [pos].
Proof.
  intros Hp. rewrite range_add by lia. change (range 1) with [0%Z].
  cbn [map]. rewrite Z.add_0_r. reflexivity.
Qed.

Lemma window_indices_snoc (s pos : Z) :
  (0 <= pos)%Z -> exists l, window_indices s pos = l ++ [pos].
Proof.
  intros Hp. unfold window_indices.
  destruct (is_boundary s pos) eqn:E.
  - unfold boundaries_upto. rewrite range_snoc, filter_app by exact Hp.
    cbn [filter]. rewrite E, app_nil_r. eexists. reflexivity.
  - eexists. reflexivity.
Qed.

Lemma last_n_snoc {A : Type} (n : nat) (l : list A) (a : A) :
  (1 <= n)%nat -> last_n n (l ++ [a]) = last_n (n - 1) l ++ [a].
Proof.
  intros Hn. unfold last_n. rewrite skipn_app, length_app. cbn [length].
  replace (length l + 1 - n - length l)%nat with 0%nat by lia.
  cbn [skipn]. f_equal. f_equal. lia.
Qed.

Lemma window_last (slots : nat) (s : Z) (high low close : list Q) (pos : Z) :
  (1 <= slots)%nat -> (0 <= pos)%Z ->
  last (window slots s high low close pos) zero_row = row_at high low close pos.
Proof.
  intros Hslots Hp. unfold window.
  destruct (window_indices_snoc s pos Hp) as (l & ->).
  rewrite length_app. cbn [length].
  rewrite last_n_snoc by lia.
  rewrite map_app. cbn [map]. rewrite app_assoc. apply last_last.
Qed.

Lemma window_1s_last (ws : Z) (high low close : list Q) (pos : Z) :
  (1 <= ws)%Z -> (0 <= pos)%Z ->
  last (window_1s ws high low close pos) zero_row = row_at high low close pos.
Proof.
  intros Hws Hp. unfold window_1s.
  destruct (Z.to_nat (Z.min (pos + 1) ws)) as [|k] eqn:Ek; [lia|].
  rewrite seq_S, !map_app. cbn [map]. rewrite app_assoc, last_last.
  f_equal. lia.
Qed.

(** X9. The last row of each of the three buffers is the row of the
    position itself: the current second in the 1s buffer (for a window
    of at least one row), the current, possibly partial, bar in the 1m
    and 5m buffers. *)
Theorem last_row_is_current (d : TradingDataset) (rg pos : Z) (df : RowGroup) :
  wf d -> (1 <= window_size d)%Z ->
  read_row_group (pf d) rg = OK df ->
  (0 <= pos < 23400)%Z -> (pos < Z.of_nat (length df))%Z ->
  exists d' sample,
    get_features_for d rg pos = (d', OK sample) /\
    last (features_1s sample) zero_row =
      row_at (map b_cdf_high_1s df) (map b_cdf_low_1s df)
             (map b_cdf_close_1s df) pos /\
    last (features_1m sample) zero_row =
      row_at (map b_cdf_high_1m df) (map b_cdf_low_1m df)
             (map b_cdf_close_1m df) pos /\
    last (features_5m sample) zero_row =
      row_at (map b_cdf_high_5m df) (map b_cdf_low_5m df)
             (map b_cdf_close_5m df) pos.
Proof.
  intros Hwf Hws Hread Hpos Hrow.
  eexists. eexists.
  split; [exact (get_features_loaded d rg pos df Hwf ltac:(lia) Hread Hpos Hrow)|].
  cbn [features_1s features_1m features_5m sample_at].
  split; [apply window_1s_last; lia|].
  split; apply window_last; lia.
Qed.

Lemma last_row_is_current_witness :
  exists d' sample,
    get_features_for one_day_dataset 0 12345 = (d', OK sample) /\
    last (features_1m sample) zero_row =
      row_at (map b_cdf_high_1m (nth 0 one_day []))
             (map b_cdf_low_1m (nth 0 one_day []))
             (map b_cdf_close_1m (nth 0 one_day [])) 12345.
Proof.
  destruct (last_row_is_current one_day_dataset 0 12345 (nth 0 one_day []))
    as (d' & sample & Hget & _ & H1m & _).
  - exact one_day_dataset_wf.
  - cbn [window_size one_day_dataset]. lia.
  - exact one_day_read.
  - lia.
  - rewrite one_day_length. lia.
  - exists d', sample. split; [exact Hget | exact H1m].
Defined.

(** *** No look-ahead *)

Lemma nth_map_prefix {A : Type} (f : A -> Q) (df1 df2 : list A) (n i : nat) :
  firstn n df1 = firstn n df2 -> (i < n)%nat ->
  nth i (map f df1) 0 = nth i (map f df2) 0.
Proof.
  intros Hpre Hi.
  assert (H : forall df, nth i (map f df) 0 = nth i (map f (firstn n df)) 0).
  { intros df. rewrite <- firstn_map, nth_firstn.
    destruct (Nat.ltb_spec i n); [reflexivity | lia]. }
  rewrite (H df1), (H df2), Hpre. reflexivity.
Qed.

Lemma nth_map_prefix_Z {A : Type} (f : A -> Z) (df1 df2 : list A) (n i : nat) :
  firstn n df1 = firstn n df2 -> (i < n)%nat ->
  nth i (map f df1) 0%Z = nth i (map f df2) 0%Z.
Proof.
  intros Hpre Hi.
  assert (H : forall df, nth i (map f df) 0%Z = nth i (map f (firstn n df)) 0%Z).
  { intros df. rewrite <- firstn_map, nth_firstn.
    destruct (Nat.ltb_spec i n); [reflexivity | lia]. }
  rewrite (H df1), (H df2), Hpre. reflexivity.
Qed.

Lemma row_at_prefix (fh fl fc : Bar -> Q) (df1 df2 : RowGroup) (pos i : Z) :
  firstn (Z.to_nat (pos + 1)) df1 = firstn (Z.to_nat (pos + 1)) df2 ->
  (0 <= i <= pos)%Z ->
  row_at (map fh df1) (map fl df1) (map fc df1) i
  = row_at (map fh df2) (map fl df2) (map fc df2) i.
Proof.
  intros Hpre Hi. unfold row_at.
  rewrite (nth_map_prefix fh df1 df2 _ (Z.to_nat i) Hpre) by lia.
  rewrite (nth_map_prefix fl df1 df2 _ (Z.to_nat i) Hpre) by lia.
  rewrite (nth_map_prefix fc df1 df2 _ (Z.to_nat i) Hpre) by lia.
  reflexivity.
Qed.

Lemma window_prefix (slots : nat) (s : Z) (fh fl fc : Bar -> Q)
  (df1 df2 : RowGroup) (pos : Z) :
  firstn (Z.to_nat (pos + 1)) df1 = firstn (Z.to_nat (pos + 1)) df2 ->
  (0 <= pos)%Z ->
  window slots s (map fh df1) (map fl df1) (map fc df1) pos
  = window slots s (map fh df2) (map fl df2) (map fc df2) pos.
Proof.
  intros Hpre Hp. unfold window. f_equal.
  apply map_ext_in. intros i Hi.
  apply (row_at_prefix fh fl fc df1 df2 pos i Hpre).
  pose proof (last_n_Forall _ (Nat.min (length (window_indices s pos)) slots) _
                (window_indices_bounds s pos Hp)) as Hall.
  rewrite Forall_forall in Hall. exact (Hall i Hi).
Qed.

Lemma window_1s_prefix (ws : Z) (fh fl fc : Bar -> Q)
  (df1 df2 : RowGroup) (pos : Z) :
  firstn (Z.to_nat (pos + 1)) df1 = firstn (Z.to_nat (pos + 1)) df2 ->
  (0 <= pos)%Z ->
  window_1s ws (map fh df1) (map fl df1) (map fc df1) pos
  = window_1s ws (map fh df2) (map fl df2) (map fc df2) pos.
Proof.
  intros Hpre Hp. unfold window_1s. f_equal.
  apply map_ext_in. intros i Hi.
  apply (row_at_prefix fh fl fc df1 df2 pos i Hpre).
  apply in_map_iff in Hi. destruct Hi as (k & <- & Hk).
  apply in_seq in Hk. lia.
Qed.

Lemma sample_at_prefix (ws : Z) (df1 df2 : RowGroup) (pos : Z) :
  firstn (Z.to_nat (pos + 1)) df1 = firstn (Z.to_nat (pos + 1)) df2 ->
  (0 <= pos)%Z ->
  sample_at ws (to_columns df1) pos = sample_at ws (to_columns df2) pos.
Proof.
  intros Hpre Hp. unfold sample_at, to_columns.
  cbn [cdf_high_1s cdf_low_1s cdf_close_1s cdf_high_1m cdf_low_1m cdf_close_1m
       cdf_high_5m cdf_low_5m cdf_close_5m session trend].
  rewrite (window_1s_prefix ws _ _ _ df1 df2 pos Hpre Hp).
  rewrite (window_prefix 60 60 _ _ _ df1 df2 pos Hpre Hp).
  rewrite (window_prefix 78 300 _ _ _ df1 df2 pos Hpre Hp).
  rewrite (nth_map_prefix_Z b_session df1 df2 _ (Z.to_nat pos) Hpre) by lia.
  rewrite (nth_map_prefix_Z b_trend df1 df2 _ (Z.to_nat pos) Hpre) by lia.
  reflexivity.
Qed.

(** X10. No look-ahead. The sample of a position is determined by the
    rows 0 to [pos] of its day: two row groups that agree on these rows,
    in whatever files and behind whatever cache states, give the same
    sample at that position, whatever the later rows hold. *)
Theorem no_look_ahead (d1 d2 : TradingDataset) (rg1 rg2 pos : Z)
  (df1 df2 : RowGroup) :
  wf d1 -> wf d2 -> (0 <= window_size d1)%Z ->
  window_size d1 = window_size d2 ->
  read_row_group (pf d1) rg1 = OK df1 ->
  read_row_group (pf d2) rg2 = OK df2 ->
  (0 <= pos < 23400)%Z ->
  (pos < Z.of_nat (length df1))%Z -> (pos < Z.of_nat (length df2))%Z ->
  firstn (Z.to_nat (pos + 1)) df1 = firstn (Z.to_nat (pos + 1)) df2 ->
  exists sample,
    snd (get_features_for d1 rg1 pos) = OK sample /\
    snd (get_features_for d2 rg2 pos) = OK sample.
Proof.
  intros Hwf1 Hwf2 Hws Hsame Hread1 Hread2 Hpos Hrow1 Hrow2 Hpre.
  rewrite (get_features_loaded d1 rg1 pos df1 Hwf1 Hws Hread1 Hpos Hrow1).
  rewrite (get_features_loaded d2 rg2 pos df2 Hwf2 ltac:(lia) Hread2 Hpos Hrow2).
  cbn [snd]. rewrite <- Hsame.
  rewrite (sample_at_prefix (window_size d1) df1 df2 pos Hpre) by lia.
  eexists. split; reflexivity.
Qed.

Lemma firstn_repeat_le {A : Type} (x : A) (n m : nat) :
  (n <= m)%nat -> firstn n (repeat x m) = repeat x n.
Proof.
  revert m; induction n as [|n IH]; intros [|m] H; cbn; try lia; try reflexivity.
  f_equal. apply IH. lia.
Qed.

Lemma uneven_dataset_wf : wf uneven_dataset.
Proof.
  split; [reflexivity|]. split; [reflexivity|]. left. split; reflexivity.
Qed.

Lemma uneven_long_read : read_row_group uneven_days 1 = OK (nth 1 uneven_days []).
Proof. reflexivity. Qed.

Lemma uneven_long_length : length (nth 1 uneven_days []) = Z.to_nat 23401.
Proof. unfold uneven_days. cbn [nth]. apply repeat_length. Qed.

Lemma no_look_ahead_witness :
  exists sample,
    snd (get_features_for one_day_dataset 0 100) = OK sample /\
    snd (get_features_for uneven_dataset 1 100) = OK sample.
Proof.
  apply (no_look_ahead one_day_dataset uneven_dataset 0 1 100
           (nth 0 one_day []) (nth 1 uneven_days [])).
  - exact one_day_dataset_wf.
  - exact uneven_dataset_wf.
  - cbn [window_size one_day_dataset]. lia.
  - reflexivity.
  - exact one_day_read.
  - exact uneven_long_read.
  - lia.
  - rewrite one_day_length. lia.
  - rewrite uneven_long_length. lia.
  - unfold one_day, uneven_days. cbn [nth].
    rewrite !firstn_repeat_le by lia. reflexivity.
Defined.

End WindowExtras.

Section FillExtras.

Import Dataset WindowSpec Examples.

(** The number of indices of a window: one for each completed bar, and
    one more for the current bar when it is partial. *)
Lemma window_indices_length (s pos : Z) :
  (0 < s)%Z -> (0 <= pos)%Z ->
  length (window_indices s pos) =
  (Z.to_nat ((pos + 1) / s) + (if is_boundary s pos then 0 else 1))%nat.
Proof.
  intros Hs Hp. unfold window_indices.
  rewrite length_app, boundaries_upto_enum, length_map, length_seq by assumption.
  destruct (is_boundary s pos); reflexivity.
Qed.

Lemma window_indices_count (s pos : Z) :
  (0 < s)%Z -> (0 <= pos)%Z ->
  (((pos + 1) mod s = 0)%Z ->
   Z.of_nat (length (window_indices s pos)) = ((pos + 1) / s)%Z) /\
  (((pos + 1) mod s <> 0)%Z ->
   Z.of_nat (length (window_indices s pos)) = ((pos + 1) / s + 1)%Z).
Proof.
  intros Hs Hp. rewrite window_indices_length by assumption.
  pose proof (Z.div_pos (pos + 1) s ltac:(lia) Hs) as Hq.
  unfold is_boundary.
  destruct (Z.eqb_spec ((pos + 1) mod s) 0); split; intros; lia.
Qed.

Lemma window_all_kept (slots : nat) (s : Z) (high low close : list Q) (pos : Z) :
  (length (window_indices s pos) <= slots)%nat ->
  window slots s high low close pos =
  repeat zero_row (slots - length (window_indices s pos))
  ++ map (row_at high low close) (window_indices s pos).
Proof.
  intros Hfit. unfold window, last_n.
  replace (Nat.min (length (window_indices s pos)) slots)
    with (length (window_indices s pos)) by lia.
  rewrite Nat.sub_diag. reflexivity.
Qed.

Lemma five_minute_count (pos : Z) :
  (0 <= pos < 23400)%Z -> (length (window_indices 300 pos) <= 78)%nat.
Proof.
  intros Hp.
  destruct (window_indices_count 300 pos ltac:(lia) ltac:(lia)) as (Hb & Hn).
  pose proof (Z.div_mod (pos + 1) 300 ltac:(lia)) as Hdm.
  pose proof (Z.mod_pos_bound (pos + 1) 300 ltac:(lia)) as Hm.
  destruct (Z.eq_dec ((pos + 1) mod 300) 0) as [E|E].
  - specialize (Hb E). lia.
  - specialize (Hn E). lia.
Qed.

(** X11. The 78 rows of the 5m buffer hold a whole day. At every position
    of a day the window has at most 78 indices, so none is dropped: the
    buffer is the rows of all the five-minute boundaries up to the
    position and of the position itself, behind the zero rows, and the
    row of every boundary since the open is still in it. *)
Theorem five_minute_window_complete (d : TradingDataset) (rg pos : Z)
  (df : RowGroup) :
  wf d -> (0 <= window_size d)%Z ->
  read_row_group (pf d) rg = OK df ->
  (0 <= pos < 23400)%Z -> (pos < Z.of_nat (length df))%Z ->
  exists d' sample,
    get_features_for d rg pos = (d', OK sample) /\
    (length (window_indices 300 pos) <= 78)%nat /\
    features_5m sample =
      repeat zero_row (78 - length (window_indices 300 pos))
      ++ map (row_at (map b_cdf_high_5m df) (map b_cdf_low_5m df)
                     (map b_cdf_close_5m df))
             (window_indices 300 pos) /\
    (forall i, (0 <= i <= pos)%Z -> ((i + 1) mod 300 = 0)%Z ->
       In (row_at (map b_cdf_high_5m df) (map b_cdf_low_5m df)
                  (map b_cdf_close_5m df) i)
          (features_5m sample)).
Proof.
  intros Hwf Hws Hread Hpos Hrow.
  eexists. eexists.
  split; [exact (get_features_loaded d rg pos df Hwf Hws Hread Hpos Hrow)|].
  cbn [features_5m sample_at to_columns cdf_high_5m cdf_low_5m cdf_close_5m].
  pose proof (five_minute_count pos Hpos) as Hfit.
  split; [exact Hfit|].
  rewrite (window_all_kept 78 300 _ _ _ pos Hfit).
  split; [reflexivity|].
  intros i Hi Hb. apply in_or_app. right. apply in_map.
  apply window_indices_In; [lia|]. left. split; assumption.
Qed.

Lemma five_minute_window_complete_witness :
  exists d' sample,
    get_features_for one_day_dataset 0 23399 = (d', OK sample) /\
    In (row_at (map b_cdf_high_5m (nth 0 one_day []))
               (map b_cdf_low_5m (nth 0 one_day []))
               (map b_cdf_close_5m (nth 0 one_day [])) 299)
       (features_5m sample).
Proof.
  destruct (five_minute_window_complete one_day_dataset 0 23399
              (nth 0 one_day []))
    as (d' & sample & Hget & _ & _ & Hin).
  - exact one_day_dataset_wf.
  - cbn [window_size one_day_dataset]. lia.
  - exact one_day_read.
  - lia.
  - rewrite one_day_length. lia.
  - exists d', sample. split; [exact Hget|]. apply Hin; [lia | reflexivity].
Defined.

(** X12. The 60 rows of the 1m buffer hold the last hour. Before position
    3540 the window has fewer than 60 indices: all are kept and the
    buffer starts with at least one zero row. From position 3540 on the
    buffer has no padding and holds the last 60 indices only; from
    position 3600 on the first minute's bar (index 59) is no longer
    among them. *)
Theorem one_minute_window_fill (d : TradingDataset) (rg pos : Z)
  (df : RowGroup) :
  wf d -> (0 <= window_size d)%Z ->
  read_row_group (pf d) rg = OK df ->
  (0 <= pos < 23400)%Z -> (pos < Z.of_nat (length df))%Z ->
  exists d' sample,
    get_features_for d rg pos = (d', OK sample) /\
    ((pos < 3540)%Z ->
     (length (window_indices 60 pos) < 60)%nat /\
     features_1m sample =
       repeat zero_row (60 - length (window_indices 60 pos))
       ++ map (row_at (map b_cdf_high_1m df) (map b_cdf_low_1m df)
                      (map b_cdf_close_1m df))
              (window_indices 60 pos)) /\
    ((3540 <= pos)%Z ->
     (60 <= length (window_indices 60 pos))%nat /\
     features_1m sample =
       map (row_at (map b_cdf_high_1m df) (map b_cdf_low_1m df)
                   (map b_cdf_close_1m df))
           (last_n 60 (window_indices 60 pos))) /\
    ((3600 <= pos)%Z -> ~ In 59%Z (last_n 60 (window_indices 60 pos))).
Proof.
  intros Hwf Hws Hread Hpos Hrow.
  eexists. eexists.
  split; [exact (get_features_loaded d rg pos df Hwf Hws Hread Hpos Hrow)|].
  cbn [features_1m sample_at to_columns cdf_high_1m cdf_low_1m cdf_close_1m].
  destruct (window_indices_count 60 pos ltac:(lia) ltac:(lia)) as (Hb & Hn).
  pose proof (Z.div_mod (pos + 1) 60 ltac:(lia)) as Hdm.
  pose proof (Z.mod_pos_bound (pos + 1) 60 ltac:(lia)) as Hm.
  split; [|split].
  - intros Hearly.
    assert (Hlt : (length (window_indices 60 pos) < 60)%nat).
    { destruct (Z.eq_dec ((pos + 1) mod 60) 0) as [E|E].
      - specialize (Hb E). lia.
      - specialize (Hn E). lia. }
    split; [exact Hlt|]. apply window_all_kept. lia.
  - intros Hlate.
    assert (Hge : (60 <= length (window_indices 60 pos))%nat).
    { destruct (Z.eq_dec ((pos + 1) mod 60) 0) as [E|E].
      - specialize (Hb E). lia.
      - specialize (Hn E). lia. }
    split; [exact Hge|]. unfold window.
    replace (Nat.min (length (window_indices 60 pos)) 60) with 60%nat by lia.
    rewrite last_n_length by lia. reflexivity.
  - intros Hlate Hin.
    assert (Hge : (61 <= length (window_indices 60 pos))%nat).
    { destruct (Z.eq_dec ((pos + 1) mod 60) 0) as [E|E].
      - specialize (Hb E). lia.
      - specialize (Hn E). lia. }
    (* index 59 is the first of the window's indices, and it is skipped *)
    unfold last_n in Hin.
    assert (Hfirst : exists rest, window_indices 60 pos = 59%Z :: rest /\
                                  ~ In 59%Z rest).
    { unfold window_indices.
      rewrite boundaries_upto_enum by lia.
      destruct (Z.to_nat ((pos + 1) / 60)) as [|q] eqn:Eq; [lia|].
      cbn [seq map app]. eexists. split; [reflexivity|].
      intros H59. apply in_app_or in H59. destruct H59 as [H59|H59].
      - apply in_map_iff in H59. destruct H59 as (k & Hk & Hk').
        apply in_seq in Hk'. lia.
      - destruct (is_boundary 60 pos); [destruct H59|].
        destruct H59 as [H59|[]]. lia. }
    destruct Hfirst as (rest & Hidx & Hnot).
    rewrite Hidx in Hin, Hge. cbn [length] in Hin, Hge.
    replace (Datatypes.S (length rest) - 60)%nat
      with (Datatypes.S (length rest - 60)) in Hin by lia.
    cbn [skipn] in Hin.
    apply Hnot. rewrite <- (firstn_skipn (length rest - 60) rest).
    apply in_or_app. right. exact Hin.
Qed.

Lemma one_minute_window_fill_witness :
  exists d' sample,
    get_features_for one_day_dataset 0 3540 = (d', OK sample) /\
    features_1m sample =
      map (row_at (map b_cdf_high_1m (nth 0 one_day []))
                  (map b_cdf_low_1m (nth 0 one_day []))
                  (map b_cdf_close_1m (nth 0 one_day [])))
          (last_n 60 (window_indices 60 3540)).
Proof.
  destruct (one_minute_window_fill one_day_dataset 0 3540 (nth 0 one_day []))
    as (d' & sample & Hget & _ & Hlate & _).
  - exact one_day_dataset_wf.
  - cbn [window_size one_day_dataset]. lia.
  - exact one_day_read.
  - lia.
  - rewrite one_day_length. lia.
  - exists d', sample. split; [exact Hget|]. apply Hlate. lia.
Defined.

End FillExtras.

Section AccessExtras.

Import Dataset WindowSpec Examples.

Lemma without_cache_wf (d : TradingDataset) : wf d -> wf (without_cache d).
Proof.
  intros (Hbars & Hgroups & _).
  split; [exact Hbars|]. split; [exact Hgroups|]. left. split; reflexivity.
Qed.

(** The result of [get_features_for] on a coherent object is the one on
    the object with an empty cache. *)
Lemma get_features_fresh (d : TradingDataset) (rg pos : Z) :
  wf d -> rg <> (-1)%Z ->
  snd (get_features_for d rg pos)
  = snd (get_features_for (without_cache d) rg pos).
Proof.
  intros Hwf Hrg.
  rewrite (get_features_read d rg pos Hwf Hrg).
  rewrite (get_features_read (without_cache d) rg pos
             (without_cache_wf d Hwf) Hrg).
  cbn [pf window_size without_cache].
  destruct (_ && _); [|reflexivity].
  destruct (read_row_group (pf d) rg); reflexivity.
Qed.

(** X13. The cache is invisible. Whatever call was made before, and
    whether it succeeded or failed, the object stays coherent and the
    next call for a row group [rg2] other than -1 gives the result that
    the freshly constructed object gives: the sample, or the exception,
    never depends on the order of the accesses. *)
Theorem cache_transparent (d : TradingDataset) (rg1 pos1 rg2 pos2 : Z) :
  wf d -> rg2 <> (-1)%Z ->
  wf (fst (get_features_for d rg1 pos1)) /\
  snd (get_features_for (fst (get_features_for d rg1 pos1)) rg2 pos2)
  = snd (get_features_for (without_cache d) rg2 pos2) /\
  snd (get_features_for d rg2 pos2)
  = snd (get_features_for (without_cache d) rg2 pos2).
Proof.
  intros Hwf Hrg.
  destruct (get_features_wf d rg1 pos1 Hwf) as (Hwf' & Hsame).
  split; [exact Hwf'|]. split.
  - rewrite (get_features_fresh _ rg2 pos2 Hwf' Hrg), Hsame. reflexivity.
  - exact (get_features_fresh d rg2 pos2 Hwf Hrg).
Qed.

Lemma cache_transparent_witness :
  snd (get_features_for (fst (get_features_for uneven_dataset 1 5)) 0 7)
  = snd (get_features_for (without_cache uneven_dataset) 0 7).
Proof.
  apply (cache_transparent uneven_dataset 1 5 0 7).
  - exact uneven_dataset_wf.
  - lia.
Defined.

(** X14. A negative index never gives a sample, and never the one counted
    from the end. In a dataset with [windows_per_day > 0] the mapping
    sends [idx < 0] to the negative day [idx // windows_per_day] and a
    position inside the day. When the cache names that day, which
    happens only on an object that has not loaded anything and for the
    day -1, the stale empty cache is used and subscripting [None] raises
    TypeError; otherwise the file is asked for the negative row group
    and the read fails. The object is left as it was. *)
Theorem negative_index (d : TradingDataset) (idx : Z) :
  wf d -> (0 <= window_size d)%Z ->
  (1 <= stride d)%Z -> (0 <= start_index d < 23400)%Z ->
  windows_per_day d = ((23400 - start_index d) / stride d)%Z ->
  (0 < windows_per_day d)%Z -> (idx < 0)%Z ->
  (idx / windows_per_day d < 0)%Z /\
  (cached_row_group d = (idx / windows_per_day d)%Z ->
   cached_data d = None /\ (- windows_per_day d <= idx)%Z /\
   __getitem__ d idx = (d, Err TypeError)) /\
  (cached_row_group d <> (idx / windows_per_day d)%Z ->
   __getitem__ d idx = (d, Err (ArchiveError (idx / windows_per_day d)))).
Proof.
  intros Hwf Hws Hs Hst Hwpd Hpos Hidx.
  assert (Hday : (idx / windows_per_day d < 0)%Z)
    by (apply Z.div_lt_upper_bound; lia).
  assert (Hlocal : (0 <= idx mod windows_per_day d < windows_per_day d)%Z)
    by (apply Z.mod_pos_bound; lia).
  assert (Hp : (0 <= start_index d + idx mod windows_per_day d * stride d
                < 23400)%Z)
    by (apply (position_in_day (stride d) (start_index d) (windows_per_day d));
        auto).
  assert (Hmap : _get_row_group_and_offset d idx =
                 OK ((idx / windows_per_day d)%Z,
                     (start_index d + idx mod windows_per_day d * stride d)%Z)).
  { unfold _get_row_group_and_offset.
    rewrite floordiv_OK, pymod_OK by lia. reflexivity. }
  assert (Hread : read_row_group (pf d) (idx / windows_per_day d)
                  = Err (ArchiveError (idx / windows_per_day d))).
  { unfold read_row_group.
    destruct (Z.leb_spec 0 (idx / windows_per_day d)); [lia | reflexivity]. }
  assert (Hrange : (0 <=? start_index d + idx mod windows_per_day d * stride d)%Z
                   && (start_index d + idx mod windows_per_day d * stride d
                       <? bars_per_day d)%Z = true).
  { rewrite (proj1 Hwf). apply andb_true_intro. split.
    - apply Z.leb_le. lia.
    - apply Z.ltb_lt. lia. }
  split; [exact Hday|]. split.
  - intros Hc.
    assert (Hnone : cached_row_group d = (-1)%Z /\ cached_data d = None).
    { destruct Hwf as (_ & _ & [Hfresh|(df & Hdf & _)]); [exact Hfresh|].
      rewrite Hc, Hread in Hdf. discriminate. }
    destruct Hnone as (Hminus & Hnone).
    split; [exact Hnone|]. split.
    + pose proof (Z.div_mod idx (windows_per_day d) ltac:(lia)) as Hdm. nia.
    + unfold __getitem__. rewrite Hmap. unfold get_features_for.
      rewrite Hrange. unfold _load_row_group.
      rewrite Hc, Z.eqb_refl. cbn [negb]. rewrite Hnone. reflexivity.
  - intros Hc. unfold __getitem__. rewrite Hmap. unfold get_features_for.
    rewrite Hrange. unfold _load_row_group.
    destruct (Z.eqb_spec (cached_row_group d) (idx / windows_per_day d));
      [contradiction|].
    cbn [negb]. rewrite Hread. reflexivity.
Qed.

Lemma negative_index_witness :
  __getitem__ one_day_dataset (-1) = (one_day_dataset, Err TypeError).
Proof.
  destruct (negative_index one_day_dataset (-1)) as (_ & Hstale & _).
  - exact one_day_dataset_wf.
  - cbn [window_size one_day_dataset]. lia.
  - cbn [stride one_day_dataset]. lia.
  - cbn [start_index one_day_dataset]. lia.
  - reflexivity.
  - cbn [windows_per_day one_day_dataset]. lia.
  - lia.
  - apply Hstale. reflexivity.
Defined.

(** X15. The index mapping is one-to-one. With [windows_per_day > 0] and
    a non-zero stride, two indices that map to the same day and position
    are equal, and the pair of a day and the [k]-th window of a day,
    [0 <= k < windows_per_day], is the image of the index
    [day * windows_per_day + k]. *)
Theorem index_mapping_injective (d : TradingDataset) :
  (0 < windows_per_day d)%Z -> stride d <> 0%Z ->
  (forall i j,
     _get_row_group_and_offset d i = _get_row_group_and_offset d j -> i = j) /\
  (forall day k, (0 <= k < windows_per_day d)%Z ->
     _get_row_group_and_offset d (day * windows_per_day d + k)
     = OK (day, (start_index d + k * stride d)%Z)).
Proof.
  intros Hw Hs. split.
  - intros i j. unfold _get_row_group_and_offset.
    rewrite !floordiv_OK, !pymod_OK by lia. cbn [bind].
    intros [= Hday Hposn].
    assert (Hmod : (i mod windows_per_day d = j mod windows_per_day d)%Z)
      by (apply (Z.mul_reg_r _ _ (stride d) Hs); lia).
    rewrite (Z.div_mod i (windows_per_day d)) by lia.
    rewrite (Z.div_mod j (windows_per_day d)) by lia.
    rewrite Hday, Hmod. reflexivity.
  - intros day k Hk. unfold _get_row_group_and_offset.
    rewrite floordiv_OK, pymod_OK by lia. cbn [bind].
    rewrite Z.div_add_l, Z.div_small by lia.
    rewrite (Z.add_comm (day * windows_per_day d) k), Z.mod_add, Z.mod_small
      by lia.
    rewrite Z.add_0_r. reflexivity.
Qed.

Lemma index_mapping_injective_witness :
  _get_row_group_and_offset uneven_dataset (1 * 23400 + 17) = OK (1%Z, 17%Z).
Proof.
  destruct (index_mapping_injective uneven_dataset) as (_ & Hgrid).
  - cbn [windows_per_day uneven_dataset]. lia.
  - cbn [stride uneven_dataset]. lia.
  - exact (Hgrid 1%Z 17%Z ltac:(cbn [windows_per_day uneven_dataset]; lia)).
Defined.

(** *** The shuffled sampler *)




(** X17. Every index of the dataset gives a sample. In a dataset over a
    file whose row groups all have 23400 rows, with [stride >= 1],
    [0 <= start_index < 23400] and a non-negative window size,
    [__getitem__] at an index in [0, len) raises nothing: it returns the
    sample of position [start_index + (idx mod windows_per_day) * stride]
    of day [idx // windows_per_day], and leaves that day in the cache. *)
Theorem getitem_valid_index (d : TradingDataset) (idx : Z) :
  wf d -> (0 <= window_size d)%Z ->
  (1 <= stride d)%Z -> (0 <= start_index d < 23400)%Z ->
  windows_per_day d = ((23400 - start_index d) / stride d)%Z ->
  Forall (fun df => length df = Z.to_nat 23400) (pf d) ->
  (0 <= idx < len d)%Z ->
  exists df,
    read_row_group (pf d) (idx / windows_per_day d) = OK df /\
    __getitem__ d idx =
      (with_cache d (idx / windows_per_day d) df,
       OK (sample_at (window_size d) (to_columns df)
                     (start_index d + idx mod windows_per_day d * stride d))).
Proof.
  intros Hwf Hws Hs Hst Hwpd Hfull Hidx.
  destruct (windows_fit _ _ Hs Hst) as (Hw0 & _). rewrite <- Hwpd in Hw0.
  unfold len in Hidx.
  assert (Hg : num_row_groups d = Z.of_nat (length (pf d)))
    by (exact (proj1 (proj2 Hwf))).
  assert (Hpos : (0 < windows_per_day d)%Z) by nia.
  assert (Hlocal : (0 <= idx mod windows_per_day d < windows_per_day d)%Z)
    by (apply Z.mod_pos_bound; lia).
  assert (Hday : (0 <= idx / windows_per_day d < Z.of_nat (length (pf d)))%Z).
  { split; [apply Z.div_pos; lia|].
    apply Z.div_lt_upper_bound; [lia | nia]. }
  assert (Hp : (0 <= start_index d + idx mod windows_per_day d * stride d
                < 23400)%Z)
    by (apply (position_in_day (stride d) (start_index d) (windows_per_day d));
        auto).
  assert (Hread : read_row_group (pf d) (idx / windows_per_day d)
                  = OK (nth (Z.to_nat (idx / windows_per_day d)) (pf d) [])).
  { unfold read_row_group.
    destruct (Z.leb_spec 0 (idx / windows_per_day d)); [|lia].
    destruct (Z.ltb_spec (idx / windows_per_day d) (Z.of_nat (length (pf d))));
      [reflexivity | lia]. }
  assert (Hlen : length (nth (Z.to_nat (idx / windows_per_day d)) (pf d) [])
                 = Z.to_nat 23400).
  { rewrite Forall_forall in Hfull. apply Hfull. apply nth_In. lia. }
  eexists. split; [exact Hread|].
  unfold __getitem__, _get_row_group_and_offset.
  rewrite floordiv_OK, pymod_OK by lia. cbn [bind].
  apply get_features_loaded; auto. rewrite Hlen. lia.
Qed.

Lemma getitem_valid_index_witness :
  exists df,
    read_row_group one_day 0 = OK df /\
    __getitem__ one_day_dataset 12345 =
      (with_cache one_day_dataset 0 df,
       OK (sample_at 60 (to_columns df) 12345)).
Proof.
  apply (getitem_valid_index one_day_dataset 12345).
  - exact one_day_dataset_wf.
  - cbn [window_size one_day_dataset]. lia.
  - cbn [stride one_day_dataset]. lia.
  - cbn [start_index one_day_dataset]. lia.
  - reflexivity.
  - constructor; [apply repeat_length | constructor].
  - rewrite one_day_dataset_len. lia.
Defined.

End AccessExtras.

Section ShortDayExtras.

Import Dataset WindowSpec Examples.

Lemma assign_col_Err (buf : list row) (start : Z) (j : column3) (vals : list Q)
  (e : error) :
  assign_col buf start j vals = Err e -> e = ValueError.
Proof.
  unfold assign_col.
  destruct (_ =? _)%nat; [discriminate|].
  destruct (_ =? _)%nat; [discriminate|]. intros [= <-]. reflexivity.
Qed.

Lemma index_out {A : Type} (xs : list A) (i : Z) :
  (Z.of_nat (length xs) <= i)%Z -> index xs i = Err (IndexError i).
Proof.
  intros Hi. unfold index.
  destruct (Z.ltb_spec i 0); [lia|]. destruct (Z.leb_spec 0 i); [|lia].
  destruct (nth_error xs (Z.to_nat i)) eqn:E; [|reflexivity].
  exfalso. assert (Z.to_nat i < length xs)%nat; [|lia].
  apply nth_error_Some. rewrite E. discriminate.
Qed.

Lemma index_Err {A : Type} (xs : list A) (i : Z) (e : error) :
  index xs i = Err e -> e = IndexError i.
Proof.
  unfold index. destruct (0 <=? _)%Z; [destruct (nth_error _ _)|];
    intros [= <-]; reflexivity.
Qed.

(** Fancy indexing with an index past the end of the array fails. *)
Lemma take_out {A : Type} (xs : list A) (indices : list Z) (i : Z) :
  In i indices -> (Z.of_nat (length xs) <= i)%Z ->
  exists j, take xs indices = Err (IndexError j).
Proof.
  intros Hin Hi. induction indices as [|i0 rest IH]; [destruct Hin|].
  cbn [take]. destruct (index xs i0) as [x|e] eqn:E.
  - cbn [bind]. destruct Hin as [->|Hin].
    + rewrite (index_out xs i Hi) in E. discriminate.
    + destruct (IH Hin) as (j & ->). exists j. reflexivity.
  - exists i0. rewrite (index_Err xs i0 e E). reflexivity.
Qed.

(** [build_features] at a position past the end of the columns. *)
Lemma build_features_short (ws : Z) (data : Columns) (pos : Z) (n : nat) :
  (0 <= ws)%Z -> columns_length data n -> (Z.of_nat n <= pos)%Z ->
  exists e, build_features ws data pos = Err e /\
            (e = ValueError \/ exists i, e = IndexError i).
Proof.
  intros Hws (Hse & Htr & Hh1 & Hl1 & Hc1 & Hhm & Hlm & Hcm & Hh5 & Hl5 & Hc5)
         Hpos.
  unfold build_features. cbv zeta.
  unfold np_zeros at 1. destruct (Z.ltb_spec ws 0) as [|_]; [lia|]. cbn [bind].
  do 3 (match goal with
        | |- exists e, bind (assign_col ?buf ?st ?col ?vals) _ = _ /\ _ =>
            let E := fresh "E" in
            destruct (assign_col buf st col vals) as [?|?] eqn:E; cbn [bind];
            [ | eexists; split; [reflexivity|];
                left; exact (assign_col_Err _ _ _ _ _ E) ]
        end).
  rewrite (arange_boundaries 60 59 pos) by lia. cbn [bind].
  rewrite (last_differs_boundary 60 pos) by lia. cbn [bind].
  rewrite (arange_boundaries 300 299 pos) by lia. cbn [bind].
  rewrite (last_differs_boundary 300 pos) by lia. cbn [bind].
  rewrite !append_if_not_boundary.
  change (boundaries_upto 60 pos ++ (if is_boundary 60 pos then [] else [pos]))
    with (window_indices 60 pos).
  change (np_zeros 60) with (OK (repeat zero_row 60)). cbn [bind].
  rewrite !(slice_from_last (window_indices 60 pos) 60) by lia.
  destruct (take_out (cdf_high_1m data)
              (last_n (Nat.min (length (window_indices 60 pos)) (Z.to_nat 60))
                      (window_indices 60 pos)) pos) as (j & Htake).
  - destruct (window_indices_snoc 60 pos ltac:(lia)) as (l & ->).
    rewrite length_app. cbn [length]. rewrite last_n_snoc by lia.
    apply in_or_app. right. left. reflexivity.
  - rewrite Hhm. exact Hpos.
  - rewrite Htake. cbn [bind]. eexists. split; [reflexivity|].
    right. exists j. reflexivity.
Qed.

(** X18. The row-count check of the constructor is on the total only, and
    the range assertion of [get_features_for] is against 23400, not the
    length of the day. In a row group with fewer than 23400 rows, a
    position at or past its end passes the assertion and the day is
    loaded into the cache; the call then fails in the buffer
    assignments, with ValueError (shape mismatch) or IndexError. *)
Theorem short_row_group (d : TradingDataset) (rg pos : Z) (df : RowGroup) :
  wf d -> (0 <= window_size d)%Z ->
  read_row_group (pf d) rg = OK df ->
  (Z.of_nat (length df) <= pos < 23400)%Z ->
  exists e,
    get_features_for d rg pos = (with_cache d rg df, Err e) /\
    (e = ValueError \/ exists i, e = IndexError i).
Proof.
  intros Hwf Hws Hread Hpos.
  assert (Hrg : rg <> (-1)%Z) by (apply read_row_group_OK in Hread; lia).
  rewrite (get_features_read d rg pos Hwf Hrg), Hread.
  destruct (Z.leb_spec 0 pos); [|lia].
  destruct (Z.ltb_spec pos 23400); [|lia]. cbn [andb].
  destruct (build_features_short (window_size d) (to_columns df) pos
              (length df) Hws (to_columns_length df) ltac:(lia))
    as (e & -> & He).
  exists e. split; [reflexivity | exact He].
Qed.

Lemma uneven_days_rows : metadata_num_rows uneven_days = 46800%Z.
Proof.
  unfold metadata_num_rows, uneven_days. cbn [concat].
  rewrite app_nil_r, length_app, !repeat_length. reflexivity.
Qed.

Lemma uneven_dataset_init : init uneven_days 60 1 0 = OK uneven_dataset.
Proof.
  unfold init. cbn [floordiv bind Z.eqb]. rewrite uneven_days_rows. reflexivity.
Qed.

Lemma uneven_short_read : read_row_group uneven_days 0 = OK (nth 0 uneven_days []).
Proof. reflexivity. Qed.

Lemma uneven_short_length : length (nth 0 uneven_days []) = Z.to_nat 23399.
Proof. unfold uneven_days. cbn [nth]. apply repeat_length. Qed.

Lemma short_row_group_witness :
  init uneven_days 60 1 0 = OK uneven_dataset /\
  exists e,
    get_features_for uneven_dataset 0 23399
    = (with_cache uneven_dataset 0 (nth 0 uneven_days []), Err e) /\
    (e = ValueError \/ exists i, e = IndexError i).
Proof.
  split; [exact uneven_dataset_init|].
  apply (short_row_group uneven_dataset 0 23399 (nth 0 uneven_days [])).
  - exact uneven_dataset_wf.
  - cbn [window_size uneven_dataset]. lia.
  - exact uneven_short_read.
  - rewrite uneven_short_length. lia.
Defined.

End ShortDayExtras.

(** ** The backtest on the dataset *)

Section DriverExtras.

Import Dataset WindowSpec DaySpec Examples.

(** The loop of [backtest_day] on a dataset that holds the day. *)
Lemma run_on_loaded (predict : Sample -> list Q) (d : TradingDataset) (rg : Z)
  (df : RowGroup) (prices : list Q) (l : list nat) (st : Backtest.locals) :
  wf d -> (0 <= window_size d)%Z ->
  read_row_group (pf d) rg = OK df ->
  (length df <= Z.to_nat 23400)%nat ->
  Forall (fun pos => (pos < length df)%nat) l ->
  Driver.run_on predict rg prices l (with_cache d rg df) st =
  (with_cache d rg df,
   for_each (Backtest.step prices (day_probs predict (window_size d) df)) l st).
Proof.
  intros Hwf Hws Hread Hlen Hl. revert st.
  induction Hl as [|pos l Hpos Hl IH]; intros st; [reflexivity|].
  cbn [Driver.run_on for_each].
  rewrite (get_features_loaded (with_cache d rg df) rg (Z.of_nat pos) df
             (with_cache_wf d rg df Hwf Hread) Hws Hread)
    by lia.
  change (with_cache (with_cache d rg df) rg df) with (with_cache d rg df).
  change (window_size (with_cache d rg df)) with (window_size d).
  change (Backtest.step prices
            (fun _ : nat =>
               predict (sample_at (window_size d) (to_columns df) (Z.of_nat pos)))
            st pos)
    with (Backtest.step prices (day_probs predict (window_size d) df) st pos).
  destruct (Backtest.step prices (day_probs predict (window_size d) df) st pos);
    [apply IH | reflexivity].
Qed.

Lemma backtest_day_read (predict : Sample -> list Q) (d : TradingDataset)
  (rg : Z) (df : RowGroup) :
  wf d -> (0 <= window_size d)%Z ->
  read_row_group (pf d) rg = OK df ->
  (length df <= Z.to_nat 23400)%nat ->
  Driver.backtest_day predict d rg =
  (with_cache d rg df, day_report predict (window_size d) df).
Proof.
  intros Hwf Hws Hread Hlen.
  assert (Hrg : rg <> (-1)%Z) by (apply read_row_group_OK in Hread; lia).
  unfold Driver.backtest_day.
  rewrite (load_read d rg Hwf Hrg), Hread.
  cbn [cached_data with_cache to_columns close].
  change (mkDataset (pf d) (window_size d) (stride d) (start_index d)
            (num_row_groups d) (bars_per_day d) (windows_per_day d) rg
            (Some (to_columns df)))
    with (with_cache d rg df).
  rewrite (run_on_loaded predict d rg df (map b_close df)
             (seq 0 (length (map b_close df))) Backtest.start
             Hwf Hws Hread Hlen).
  - unfold day_report, Backtest.backtest_day, Backtest.run.
    destruct (for_each _ _ _); reflexivity.
  - apply Forall_forall. intros pos Hin. apply in_seq in Hin.
    rewrite length_map in Hin. lia.
Qed.

(** X19. The backtest of a day on the dataset is the simulation of the
    day on its own rows: for a row group of the file with at most 23400
    rows, [backtest_day] returns what the loop of the simulator returns
    on the [close] column of the row group, with, at each position, the
    probabilities the model gives for the sample of that position; the
    row group is left in the cache. What the dataset held before plays
    no part. *)
Theorem backtest_day_on_dataset (predict : Sample -> list Q)
  (d : TradingDataset) (rg : Z) (df : RowGroup) :
  wf d -> (0 <= window_size d)%Z ->
  read_row_group (pf d) rg = OK df ->
  (length df <= Z.to_nat 23400)%nat ->
  Driver.backtest_day predict d rg =
  (with_cache d rg df,
   Backtest.backtest_day
     (map b_close df)
     (fun pos =>
        predict (sample_at (window_size d) (to_columns df) (Z.of_nat pos)))).
Proof.
  intros Hwf Hws Hread Hlen.
  assert (Hrg : rg <> (-1)%Z) by (apply read_row_group_OK in Hread; lia).
  assert (Hpositions :
            Forall (fun pos => (pos < length df)%nat)
                   (seq 0 (length (map b_close df)))).
  { apply Forall_forall. intros pos Hin. apply in_seq in Hin.
    rewrite length_map in Hin. lia. }
  unfold Driver.backtest_day.
  rewrite (load_read d rg Hwf Hrg), Hread.
  cbn [cached_data with_cache to_columns close].
  change (mkDataset (pf d) (window_size d) (stride d) (start_index d)
            (num_row_groups d) (bars_per_day d) (windows_per_day d) rg
            (Some (to_columns df)))
    with (with_cache d rg df).
  rewrite (run_on_loaded predict d rg df (map b_close df) _ Backtest.start
             Hwf Hws Hread Hlen Hpositions).
  unfold Backtest.backtest_day, Backtest.run.
  change (fun pos : nat =>
            predict (sample_at (window_size d) (to_columns df) (Z.of_nat pos)))
    with (day_probs predict (window_size d) df).
  destruct (for_each _ _ _); reflexivity.
Qed.

Lemma backtest_day_on_dataset_witness :
  Driver.backtest_day unsure_model one_day_dataset 0 =
  (with_cache one_day_dataset 0 (nth 0 one_day []),
   Backtest.backtest_day
     (map b_close (nth 0 one_day []))
     (fun pos =>
        unsure_model (sample_at 60 (to_columns (nth 0 one_day []))
                                (Z.of_nat pos)))).
Proof.
  apply (backtest_day_on_dataset unsure_model one_day_dataset 0
           (nth 0 one_day [])).
  - exact one_day_dataset_wf.
  - cbn [window_size one_day_dataset]. lia.
  - exact one_day_read.
  - rewrite one_day_length. lia.
Defined.

(** *** run_backtest *)

Lemma run_on_wf (predict : Sample -> list Q) (rg : Z) (prices : list Q)
  (l : list nat) (d : TradingDataset) (st : Backtest.locals) :
  wf d ->
  wf (fst (Driver.run_on predict rg prices l d st)) /\
  without_cache (fst (Driver.run_on predict rg prices l d st))
  = without_cache d.
Proof.
  revert d st. induction l as [|pos l IH]; intros d st Hwf;
    [split; [exact Hwf | reflexivity]|].
  cbn [Driver.run_on].
  pose proof (get_features_wf d rg (Z.of_nat pos) Hwf) as Hget.
  destruct (get_features_for d rg (Z.of_nat pos)) as [d' [sample|e]];
    cbn [fst] in Hget; [|exact Hget].
  destruct (Backtest.step _ _ _ _) as [st'|e]; [|exact Hget].
  destruct (IH d' st' (proj1 Hget)) as (Hwf' & Hsame).
  split; [exact Hwf'|]. rewrite Hsame. exact (proj2 Hget).
Qed.

Lemma backtest_day_wf (predict : Sample -> list Q) (d : TradingDataset)
  (rg : Z) :
  wf d ->
  wf (fst (Driver.backtest_day predict d rg)) /\
  without_cache (fst (Driver.backtest_day predict d rg)) = without_cache d.
Proof.
  intros Hwf. unfold Driver.backtest_day.
  pose proof (load_wf d rg Hwf) as Hload.
  destruct (_load_row_group d rg) as [d1 [u|e]]; cbn [fst] in Hload;
    [|exact Hload].
  destruct (cached_data d1) as [data|]; [|exact Hload].
  pose proof (run_on_wf predict rg (close data) (seq 0 (length (close data)))
                d1 Backtest.start (proj1 Hload)) as Hrun.
  destruct (Driver.run_on _ _ _ _ _ _) as [d2 [st|e]]; cbn [fst] in *;
    (split; [exact (proj1 Hrun)|]);
    rewrite (proj2 Hrun); exact (proj2 Hload).
Qed.

Lemma pf_without_cache (d d' : TradingDataset) :
  without_cache d' = without_cache d ->
  pf d' = pf d /\ window_size d' = window_size d.
Proof.
  intros H. split.
  - exact (f_equal pf H).
  - exact (f_equal window_size H).
Qed.

(** A day that [backtest_day] gets through is a row group of the file. *)
Lemma backtest_day_OK_read (predict : Sample -> list Q) (d d' : TradingDataset)
  (rg : Z) (r : Backtest.report) :
  wf d -> Driver.backtest_day predict d rg = (d', OK r) ->
  exists df, read_row_group (pf d) rg = OK df.
Proof.
  intros Hwf H.
  destruct (read_row_group (pf d) rg) as [df|e] eqn:Hread;
    [eexists; reflexivity|].
  exfalso. unfold Driver.backtest_day, _load_row_group in H.
  destruct (Z.eqb_spec (cached_row_group d) rg) as [Heq|Hne]; cbn [negb] in H.
  - destruct Hwf as (_ & _ & [(_ & Hnone)|(df & Hdf & _)]).
    + rewrite Hnone in H. discriminate.
    + rewrite Heq, Hread in Hdf. discriminate.
  - rewrite Hread in H. discriminate.
Qed.

Lemma run_days_missing (predict : Sample -> list Q) (days : list Z) (day : Z) :
  In day days ->
  forall (d : TradingDataset) (pnls : list Q) (trades : list nat) (e0 : error),
  wf d -> read_row_group (pf d) day = Err e0 ->
  exists e, Driver.run_days predict days d pnls trades = Err e.
Proof.
  induction days as [|day0 rest IH]; intros Hin d pnls trades e0 Hwf Hread;
    [destruct Hin|].
  cbn [Driver.run_days].
  pose proof (backtest_day_wf predict d day0 Hwf) as Hday.
  destruct (Driver.backtest_day predict d day0) as [d' [r|e]] eqn:E;
    cbn [fst bind] in *; [|exists e; reflexivity].
  destruct (Driver.plot_backtest r) as [u|e]; cbn [bind];
    [|exists e; reflexivity].
  destruct Hin as [->|Hin].
  - destruct (backtest_day_OK_read predict d d' day r Hwf E) as (df & Hdf).
    rewrite Hread in Hdf. discriminate.
  - destruct Hday as (Hwf' & Hsame).
    apply (IH Hin d' _ _ e0 Hwf').
    rewrite (proj1 (pf_without_cache d d' Hsame)). exact Hread.
Qed.

(** X20. [run_backtest] needs every requested day. If one of the day
    indices is not a row group of the test file, the run ends in an
    exception and returns no result, however many days were simulated
    before it; so the default list 0, 50, 100, 200, 500 needs a file of
    at least 501 days. *)
Theorem run_backtest_missing_day (predict : Sample -> list Q)
  (test_file : ParquetFile) (day_indices : option (list Z)) (day : Z) :
  In day (match day_indices with
          | None => [0; 50; 100; 200; 500]%Z
          | Some days => days
          end) ->
  ~ (0 <= day < metadata_num_row_groups test_file)%Z ->
  exists e, Driver.run_backtest predict test_file day_indices = Err e.
Proof.
  intros Hin Hout. unfold Driver.run_backtest.
  destruct (init test_file 60 1 0) as [d|e] eqn:Hinit; cbn [bind];
    [|exists e; reflexivity].
  pose proof (init_wf _ _ _ _ _ Hinit) as Hwf.
  destruct (init_inv _ _ _ _ _ Hinit) as (_ & _ & Hd).
  apply (run_days_missing predict _ day Hin d [] [] (ArchiveError day) Hwf).
  rewrite Hd. cbn [pf]. unfold read_row_group.
  unfold metadata_num_row_groups in Hout.
  destruct (Z.leb_spec 0 day);
    destruct (Z.ltb_spec day (Z.of_nat (length test_file)));
    cbn [andb]; try reflexivity. lia.
Qed.

Lemma run_backtest_missing_day_witness :
  exists e, Driver.run_backtest unsure_model one_day None = Err e.
Proof.
  apply (run_backtest_missing_day unsure_model one_day None 50).
  - cbn [In]. right. left. reflexivity.
  - cbn. lia.
Defined.

Lemma run_days_per_day (predict : Sample -> list Q) (days : list Z) :
  Forall (fun day => (0 <= day)%Z) days ->
  forall (d : TradingDataset) (pnls : list Q) (trades : list nat),
  wf d -> (0 <= window_size d)%Z ->
  Forall (fun df => (length df <= Z.to_nat 23400)%nat) (pf d) ->
  Driver.run_days predict days d pnls trades
  = day_reports predict (window_size d) (pf d) days pnls trades.
Proof.
  induction 1 as [|day rest Hday Hrest IH]; intros d pnls trades Hwf Hws Hfull;
    [reflexivity|].
  cbn [Driver.run_days day_reports].
  destruct (read_row_group (pf d) day) as [df|e] eqn:Hread; cbn [bind].
  - assert (Hlen : (length df <= Z.to_nat 23400)%nat).
    { destruct (read_row_group_OK _ _ _ Hread) as (Hin & ->).
      rewrite Forall_forall in Hfull. apply Hfull. apply nth_In. lia. }
    rewrite (backtest_day_read predict d day df Hwf Hws Hread Hlen).
    destruct (day_report predict (window_size d) df) as [r|e]; cbn [bind];
      [|reflexivity].
    destruct (Driver.plot_backtest r); cbn [bind]; [|reflexivity].
    rewrite (IH (with_cache d day df) _ _ (with_cache_wf d day df Hwf Hread)
               Hws Hfull).
    reflexivity.
  - unfold Driver.backtest_day.
    rewrite (load_read d day Hwf ltac:(lia)), Hread. reflexivity.
Qed.

(** X21. The days of a run do not influence each other. On a test file
    whose row groups have at most 23400 rows, and for non-negative day
    indices, [run_backtest] returns what is obtained by reading each day
    from the file and simulating it on its own rows with a fresh
    simulator: the dataset object shared by the days, and its cache,
    carry nothing from one day to the next, and the first failing day
    ends the run with its exception. *)
Theorem run_backtest_per_day (predict : Sample -> list Q)
  (test_file : ParquetFile) (day_indices : option (list Z)) :
  Forall (fun df => (length df <= Z.to_nat 23400)%nat) test_file ->
  Forall (fun day => (0 <= day)%Z)
         (match day_indices with
          | None => [0; 50; 100; 200; 500]%Z
          | Some days => days
          end) ->
  Driver.run_backtest predict test_file day_indices =
  (_ <- init test_file 60 1 0 ;;
   day_reports predict 60 test_file
               (match day_indices with
                | None => [0; 50; 100; 200; 500]%Z
                | Some days => days
                end) [] []).
Proof.
  intros Hfull Hdays. unfold Driver.run_backtest.
  destruct (init test_file 60 1 0) as [d|e] eqn:Hinit; cbn [bind];
    [|reflexivity].
  pose proof (init_wf _ _ _ _ _ Hinit) as Hwf.
  destruct (init_inv _ _ _ _ _ Hinit) as (_ & _ & Hd).
  rewrite (run_days_per_day predict _ Hdays d [] [] Hwf);
    rewrite Hd; cbn [pf window_size]; [reflexivity | lia | exact Hfull].
Qed.

Lemma run_backtest_per_day_witness :
  Driver.run_backtest unsure_model one_day (Some [0%Z]) =
  (_ <- init one_day 60 1 0 ;;
   day_reports unsure_model 60 one_day [0%Z] [] []).
Proof.
  apply (run_backtest_per_day unsure_model one_day (Some [0%Z])).
  - constructor; [|constructor]. rewrite repeat_length. lia.
  - constructor; [lia | constructor].
Defined.

End DriverExtras.
